(** * PlanPhase: the Problem model of [problems/models.py]

    A shallow embedding of the [Problem] entity, its custom [save] hook
    (audit-trail diff, actor stamping, automatic start/close timestamps),
    its derived properties and the [ProblemQuerySet] filters, followed by
    the properties of the specification that concern them.

    Conventions of the embedding
    - a timestamp ([datetime]) is an integer number of microseconds since
      the epoch, a duration ([timedelta]) an integer number of
      microseconds; both are exact in Python, so [Z] arithmetic is theirs;
    - [priority] is a binary64 float, compared with the IEEE equality that
      Python's [==] and [!=] use on floats;
    - a reference to a [User] or a [Problem] is the primary key of the row;
    - the database is a finite map from primary keys to rows plus the
      append-only list of [ProblemHistory] rows;
    - [now()] reads a clock: the world carries the sequence of readings and
      the number of readings taken so far;
    - Python exceptions are the [Raise] results of a state-and-error monad;
      the state survives an exception, as the database does. *)

From Stdlib Require Import ZArith Floats.PrimFloat.
From stdpp Require Import gmap strings list.

Open Scope Z_scope.
Open Scope string_scope.

(** ** Values and rows *)

(** The Python values that the attributes of a [Problem] hold. *)
Inductive value : Type :=
  | VNone
  | VStr (s : string)
  | VInt (n : Z)
  | VFloat (x : float)
  | VUser (pk : Z)
  | VProblem (pk : Z)
  | VDuration (us : Z)
  | VDateTime (us : Z).

(** Python's [==] on those values: equal types and equal contents; floats
    by IEEE equality (so [nan == nan] is false and [0.0 == -0.0] is true);
    model instances by primary key; [None] only equals [None]. *)
Definition py_eq (a b : value) : bool :=
  match a, b with
  | VNone, VNone => true
  | VStr s, VStr t => String.eqb s t
  | VInt m, VInt n => Z.eqb m n
  | VFloat x, VFloat y => PrimFloat.eqb x y
  | VUser i, VUser j => Z.eqb i j
  | VProblem i, VProblem j => Z.eqb i j
  | VDuration d, VDuration e => Z.eqb d e
  | VDateTime t, VDateTime u => Z.eqb t u
  | _, _ => false
  end.

(** Python's [!=]. *)
Definition py_ne (a b : value) : bool := negb (py_eq a b).

(** The columns of [Problem] (the many-to-many relations [advisors] and
    [tags] live in tables of their own and are not attributes that [save]
    reads or writes). *)
Record Problem : Type := mkProblem {
  pk : option Z;
  title : string;
  description : option string;
  scale : string;
  parent : option Z;
  chief : option Z;
  executive : option Z;
  status : string;
  priority : float;
  etd : option Z;
  created_by : option Z;
  updated_by : option Z;
  created_at : option Z;
  updated_at : option Z;
  started_at : option Z;
  closed_at : option Z
}.

Definition set_pk (v : option Z) (o : Problem) : Problem :=
  mkProblem v (title o) (description o) (scale o) (parent o) (chief o)
    (executive o) (status o) (priority o) (etd o) (created_by o)
    (updated_by o) (created_at o) (updated_at o) (started_at o) (closed_at o).

Definition set_status (v : string) (o : Problem) : Problem :=
  mkProblem (pk o) (title o) (description o) (scale o) (parent o) (chief o)
    (executive o) v (priority o) (etd o) (created_by o)
    (updated_by o) (created_at o) (updated_at o) (started_at o) (closed_at o).

Definition set_created_by (v : option Z) (o : Problem) : Problem :=
  mkProblem (pk o) (title o) (description o) (scale o) (parent o) (chief o)
    (executive o) (status o) (priority o) (etd o) v
    (updated_by o) (created_at o) (updated_at o) (started_at o) (closed_at o).

Definition set_updated_by (v : option Z) (o : Problem) : Problem :=
  mkProblem (pk o) (title o) (description o) (scale o) (parent o) (chief o)
    (executive o) (status o) (priority o) (etd o) (created_by o)
    v (created_at o) (updated_at o) (started_at o) (closed_at o).

Definition set_created_at (v : option Z) (o : Problem) : Problem :=
  mkProblem (pk o) (title o) (description o) (scale o) (parent o) (chief o)
    (executive o) (status o) (priority o) (etd o) (created_by o)
    (updated_by o) v (updated_at o) (started_at o) (closed_at o).

Definition set_updated_at (v : option Z) (o : Problem) : Problem :=
  mkProblem (pk o) (title o) (description o) (scale o) (parent o) (chief o)
    (executive o) (status o) (priority o) (etd o) (created_by o)
    (updated_by o) (created_at o) v (started_at o) (closed_at o).

Definition set_started_at (v : option Z) (o : Problem) : Problem :=
  mkProblem (pk o) (title o) (description o) (scale o) (parent o) (chief o)
    (executive o) (status o) (priority o) (etd o) (created_by o)
    (updated_by o) (created_at o) (updated_at o) v (closed_at o).

Definition set_closed_at (v : option Z) (o : Problem) : Problem :=
  mkProblem (pk o) (title o) (description o) (scale o) (parent o) (chief o)
    (executive o) (status o) (priority o) (etd o) (created_by o)
    (updated_by o) (created_at o) (updated_at o) (started_at o) v.

(** A row of [ProblemHistory], with the values as they are handed to
    [ProblemHistory.objects.create]. *)
Record ProblemHistory : Type := mkHistory {
  h_problem : option Z;
  h_field : string;
  h_old_value : value;
  h_new_value : value;
  h_changed_by : option Z;
  h_changed_at : Z
}.

(** ** The world: database and clock *)

Record World : Type := mkWorld {
  problems : gmap Z Problem;
  next_pk : Z;
  history : list ProblemHistory;
  clock : nat -> Z;
  ticks : nat
}.

Inductive exn : Type :=
  | DoesNotExist
  | AttributeError
  | IntegrityError.

Inductive result (A : Type) : Type :=
  | Ok (a : A)
  | Raise (e : exn).
Arguments Ok {A} a.
Arguments Raise {A} e.

(** Computations that read and write the world and may raise. *)
Definition M (A : Type) : Type := World -> World * result A.

Definition ret {A} (a : A) : M A := fun w => (w, Ok a).

Definition bind {A B} (c : M A) (k : A -> M B) : M B :=
  fun w =>
    match c w with
    | (w', Ok a) => k a w'
    | (w', Raise e) => (w', Raise e)
    end.

Definition raise {A} (e : exn) : M A := fun w => (w, Raise e).

Declare Scope py_scope.
Delimit Scope py_scope with py.
Notation "'do' x <- c ; k" := (bind c (fun x => k))
  (at level 10, x name, c at level 100, k at level 200) : py_scope.
Notation "c ;;; k" := (bind c (fun _ => k))
  (at level 100, k at level 200, right associativity) : py_scope.
Open Scope py_scope.

(** [django.utils.timezone.now()]: the next reading of the clock. *)
Definition now : M Z :=
  fun w =>
    (mkWorld (problems w) (next_pk w) (history w) (clock w) (S (ticks w)),
     Ok (clock w (ticks w))).

(** ** Attribute access *)

Definition of_opt {A} (inj : A -> value) (o : option A) : value :=
  match o with
  | Some a => inj a
  | None => VNone
  end.

(** The attributes of an instance by name. *)
Definition Problem_attr (o : Problem) (name : string) : option value :=
  if String.eqb name "id" then Some (of_opt VInt (pk o))
  else if String.eqb name "title" then Some (VStr (title o))
  else if String.eqb name "description" then Some (of_opt VStr (description o))
  else if String.eqb name "scale" then Some (VStr (scale o))
  else if String.eqb name "parent" then Some (of_opt VProblem (parent o))
  else if String.eqb name "chief" then Some (of_opt VUser (chief o))
  else if String.eqb name "executive" then Some (of_opt VUser (executive o))
  else if String.eqb name "status" then Some (VStr (status o))
  else if String.eqb name "priority" then Some (VFloat (priority o))
  else if String.eqb name "etd" then Some (of_opt VDuration (etd o))
  else if String.eqb name "created_by" then Some (of_opt VUser (created_by o))
  else if String.eqb name "updated_by" then Some (of_opt VUser (updated_by o))
  else if String.eqb name "created_at" then Some (of_opt VDateTime (created_at o))
  else if String.eqb name "updated_at" then Some (of_opt VDateTime (updated_at o))
  else if String.eqb name "started_at" then Some (of_opt VDateTime (started_at o))
  else if String.eqb name "closed_at" then Some (of_opt VDateTime (closed_at o))
  else None.

(** [getattr(o, name)]: raises [AttributeError] on an unknown name. *)
Definition getattr (o : Problem) (name : string) : M value :=
  match Problem_attr o name with
  | Some v => ret v
  | None => raise AttributeError
  end.

(** ** The framework's side: lookups and writes *)

(** Truth value of [self.pk]: [None] and [0] are false. *)
Definition pk_truthy (k : option Z) : bool :=
  match k with
  | Some n => negb (Z.eqb n 0)
  | None => false
  end.

(** [Problem.objects.get(pk=k)]: the stored row, or [DoesNotExist]. *)
Definition Problem_objects_get (k : option Z) : M Problem :=
  fun w =>
    match k with
    | Some id =>
        match problems w !! id with
        | Some row => (w, Ok (set_pk (Some id) row))
        | None => (w, Raise DoesNotExist)
        end
    | None => (w, Raise DoesNotExist)
    end.

(** [ProblemHistory.objects.create(...)]: [changed_at] takes its default,
    a reading of the clock, and the row is appended to the table. *)
Definition ProblemHistory_objects_create (problem : option Z) (field : string)
    (old_value new_value : value) (changed_by : option Z) : M unit :=
  do t <- now;
  fun w =>
    (mkWorld (problems w) (next_pk w)
       (history w ++ [mkHistory problem field old_value new_value changed_by t])
       (clock w) (ticks w),
     Ok tt).

Definition write_row (id : Z) (row : Problem) : M unit :=
  fun w =>
    (mkWorld (<[id := row]> (problems w)) (next_pk w) (history w)
       (clock w) (ticks w),
     Ok tt).

Definition take_next_pk : M Z :=
  fun w =>
    match problems w !! next_pk w with
    | Some _ => (w, Raise IntegrityError)
    | None =>
        (mkWorld (problems w) (next_pk w + 1) (history w) (clock w) (ticks w),
         Ok (next_pk w))
    end.

Definition row_exists (id : Z) : M bool :=
  fun w =>
    (w, Ok (match problems w !! id with Some _ => true | None => false end)).

(** [super().save()], the framework's [Model.save] with its default
    arguments, as far as this model sees it: an instance without a primary
    key is inserted under the next key of the sequence; an instance with a
    key is written over the row of that key, or inserted under that key
    when there is none. [updated_at] ([auto_now]) is read from the clock
    for every write and [created_at] ([auto_now_add]) for every insert;
    both are set on the instance too. No history row is written here. *)
Definition Model_save (self : Problem) : M Problem :=
  match pk self with
  | None =>
      do id <- take_next_pk;
      do c <- now;
      do u <- now;
      let self :=
        set_updated_at (Some u)
          (set_created_at (Some c) (set_pk (Some id) self)) in
      write_row id self;;;
      ret self
  | Some id =>
      do found <- row_exists id;
      do u <- now;
      let self := set_updated_at (Some u) self in
      if found then
        write_row id self;;;
        ret self
      else
        do c <- now;
        do u <- now;
        let self := set_updated_at (Some u) (set_created_at (Some c) self) in
        write_row id self;;;
        ret self
  end.

(** ** [Problem.save] *)

Definition track_fields : list string :=
  [ "title"; "description"; "status"; "priority"; "chief"; "executive";
    "etd"; "scale"; "started_at"; "closed_at" ].

(** The loop [for field in track_fields] of [save]: one history row for
    every field whose stored and in-memory values are unequal. *)
Fixpoint log_changes (old self : Problem) (user : option Z)
    (fields : list string) : M unit :=
  match fields with
  | [] => ret tt
  | field :: rest =>
      do old_value <- getattr old field;
      do new_value <- getattr self field;
      (if py_ne old_value new_value
       then ProblemHistory_objects_create (pk self) field old_value new_value user
       else ret tt);;;
      log_changes old self user rest
  end.

Definition is_None {A} (o : option A) : bool :=
  match o with
  | Some _ => false
  | None => true
  end.

(** The block "Auto Timestamp Logic" of [save]. *)
Definition auto_timestamps (self : Problem) : M Problem :=
  do self <-
    (if String.eqb (status self) "engaged" && is_None (started_at self)
     then do t <- now; ret (set_started_at (Some t) self)
     else ret self);
  if (String.eqb (status self) "done" || String.eqb (status self) "cancelled")
     && is_None (closed_at self)
  then do t <- now; ret (set_closed_at (Some t) self)
  else ret self.

(** [Problem.save(self, user=user)]. The instance is mutated in place in
    Python; here the mutated instance is the result. *)
Definition save (self : Problem) (user : option Z) : M Problem :=
  do self <-
    (if pk_truthy (pk self) then
       do old <- Problem_objects_get (pk self);
       log_changes old self user track_fields;;;
       ret (match user with
            | Some _ => set_updated_by user self
            | None => self
            end)
     else
       ret (match user with
            | Some _ => set_updated_by user (set_created_by user self)
            | None => self
            end));
  do self <- auto_timestamps self;
  Model_save self.

(** ** Derived properties *)

(** Truth value of an optional [datetime]: only [None] is false. *)
Definition datetime_truthy (t : option Z) : bool :=
  match t with
  | Some _ => true
  | None => false
  end.

(** Truth value of an optional [timedelta]: [None] and the zero duration
    are false. *)
Definition timedelta_truthy (d : option Z) : bool :=
  match d with
  | Some us => negb (Z.eqb us 0)
  | None => false
  end.

(** The property [Problem.expected_end]. *)
Definition expected_end (self : Problem) : option Z :=
  if datetime_truthy (created_at self) && timedelta_truthy (etd self) then
    match created_at self, etd self with
    | Some c, Some d => Some (c + d)
    | _, _ => None
    end
  else None.

(** The property [Problem.real_duration]. *)
Definition real_duration (self : Problem) : M (option Z) :=
  if negb (datetime_truthy (started_at self)) then ret None
  else if datetime_truthy (closed_at self) then
    ret (match closed_at self, started_at self with
         | Some c, Some s => Some (c - s)
         | _, _ => None
         end)
  else
    do t <- now;
    ret (match started_at self with
         | Some s => Some (t - s)
         | None => None
         end).

(** [x in [a, b, ...]] on strings. *)
Definition str_in (x : string) (l : list string) : bool :=
  existsb (String.eqb x) l.

(** The property [Problem.active_state]. *)
Definition active_state (self : Problem) : string :=
  if String.eqb (status self) "new" then "new"
  else if str_in (status self) ["engaged"; "blocked"] then "active"
  else "inactive".

(** ** [ProblemQuerySet] *)

(** A query set is the list of the rows it selects, each with the value of
    the annotation [deadline] when it carries one. *)
Record Selected : Type := mkSelected {
  instance : Problem;
  deadline : option (option Z)
}.

Definition ProblemQuerySet : Type := list Selected.

(** [Problem.objects.all()]: the rows of the table. *)
Definition all_problems (w : World) : ProblemQuerySet :=
  map (fun kv => mkSelected (set_pk (Some (fst kv)) (snd kv)) None)
      (map_to_list (problems w)).

(** [ProblemQuerySet.active]. *)
Definition ProblemQuerySet_active (self : ProblemQuerySet) : ProblemQuerySet :=
  List.filter (fun s => str_in (status (instance s)) ["engaged"; "blocked"]) self.

(** SQL addition of a timestamp and an interval: [NULL] when either is. *)
Definition sql_add (a b : option Z) : option Z :=
  match a, b with
  | Some x, Some y => Some (x + y)
  | _, _ => None
  end.

(** SQL [a < t]: not satisfied when [a] is [NULL]. *)
Definition sql_lt (a : option Z) (t : Z) : bool :=
  match a with
  | Some x => Z.ltb x t
  | None => false
  end.

(** [ProblemQuerySet.overdue], with the reading [t] of [now()]. *)
Definition ProblemQuerySet_overdue_at (t : Z) (self : ProblemQuerySet) :
    ProblemQuerySet :=
  let selected :=
    List.filter
      (fun s =>
         negb (is_None (etd (instance s)))
         && negb (is_None (started_at (instance s)))
         && str_in (status (instance s)) ["new"; "engaged"; "blocked"])
      self in
  let annotated :=
    map (fun s =>
           mkSelected (instance s)
             (Some (sql_add (started_at (instance s)) (etd (instance s)))))
        selected in
  List.filter
    (fun s =>
       match deadline s with
       | Some d => sql_lt d t
       | None => false
       end)
    annotated.

(** [ProblemQuerySet.overdue]. *)
Definition ProblemQuerySet_overdue (self : ProblemQuerySet) : M ProblemQuerySet :=
  do t <- now;
  ret (ProblemQuerySet_overdue_at t self).

(** ** The other filters of [ProblemQuerySet] *)

(** [ProblemQuerySet.new]. *)
Definition ProblemQuerySet_new (self : ProblemQuerySet) : ProblemQuerySet :=
  List.filter (fun s => String.eqb (status (instance s)) "new") self.

(** [ProblemQuerySet.done]. *)
Definition ProblemQuerySet_done (self : ProblemQuerySet) : ProblemQuerySet :=
  List.filter (fun s => String.eqb (status (instance s)) "done") self.

(** [ProblemQuerySet.cancelled]. *)
Definition ProblemQuerySet_cancelled (self : ProblemQuerySet) : ProblemQuerySet :=
  List.filter (fun s => String.eqb (status (instance s)) "cancelled") self.

(** [ProblemQuerySet.tasks]. *)
Definition ProblemQuerySet_tasks (self : ProblemQuerySet) : ProblemQuerySet :=
  List.filter (fun s => String.eqb (scale (instance s)) "task") self.

(** [ProblemQuerySet.missions]. *)
Definition ProblemQuerySet_missions (self : ProblemQuerySet) : ProblemQuerySet :=
  List.filter (fun s => String.eqb (scale (instance s)) "mission") self.

(** Equality of two references in a filter: the same key, or both absent
    (a filter on [None] is the test [IS NULL]). *)
Definition ref_eqb (a b : option Z) : bool :=
  match a, b with
  | Some x, Some y => Z.eqb x y
  | None, None => true
  | _, _ => false
  end.

(** [ProblemQuerySet.by_chief]. *)
Definition ProblemQuerySet_by_chief (user : option Z) (self : ProblemQuerySet) :
    ProblemQuerySet :=
  List.filter (fun s => ref_eqb (chief (instance s)) user) self.

(** [ProblemQuerySet.by_executive]. *)
Definition ProblemQuerySet_by_executive (user : option Z)
    (self : ProblemQuerySet) : ProblemQuerySet :=
  List.filter (fun s => ref_eqb (executive (instance s)) user) self.

(** ** [ProblemManager] *)

(** [ProblemManager.get_queryset]: the query set of all the rows. *)
Definition ProblemManager_get_queryset : M ProblemQuerySet :=
  fun w => (w, Ok (all_problems w)).

Definition ProblemManager_new : M ProblemQuerySet :=
  do qs <- ProblemManager_get_queryset; ret (ProblemQuerySet_new qs).

Definition ProblemManager_active : M ProblemQuerySet :=
  do qs <- ProblemManager_get_queryset; ret (ProblemQuerySet_active qs).

Definition ProblemManager_done : M ProblemQuerySet :=
  do qs <- ProblemManager_get_queryset; ret (ProblemQuerySet_done qs).

Definition ProblemManager_cancelled : M ProblemQuerySet :=
  do qs <- ProblemManager_get_queryset; ret (ProblemQuerySet_cancelled qs).

Definition ProblemManager_overdue : M ProblemQuerySet :=
  do qs <- ProblemManager_get_queryset; ProblemQuerySet_overdue qs.

Definition ProblemManager_tasks : M ProblemQuerySet :=
  do qs <- ProblemManager_get_queryset; ret (ProblemQuerySet_tasks qs).

Definition ProblemManager_missions : M ProblemQuerySet :=
  do qs <- ProblemManager_get_queryset; ret (ProblemQuerySet_missions qs).

Definition ProblemManager_by_chief (user : option Z) : M ProblemQuerySet :=
  do qs <- ProblemManager_get_queryset; ret (ProblemQuerySet_by_chief user qs).

Definition ProblemManager_by_executive (user : option Z) : M ProblemQuerySet :=
  do qs <- ProblemManager_get_queryset;
  ret (ProblemQuerySet_by_executive user qs).

(** ** The choices of the models *)

(** [Problem.SCALE_CHOICES]. *)
Definition SCALE_CHOICES : list (string * string) :=
  [ ("task", "Task"); ("mission", "Mission") ].

(** [Problem.STATUS_CHOICES]. *)
Definition STATUS_CHOICES : list (string * string) :=
  [ ("new", "New"); ("engaged", "Engaged"); ("blocked", "Blocked");
    ("done", "Done"); ("cancelled", "Cancelled") ].

(** [ProblemHistory.FIELD_CHOICES]. *)
Definition FIELD_CHOICES : list (string * string) :=
  [ ("title", "Title"); ("description", "Description"); ("status", "Status");
    ("priority", "Priority"); ("chief", "Chief"); ("executive", "Executive");
    ("etd", "Estimated Duration"); ("scale", "Scale");
    ("started_at", "Started At"); ("closed_at", "Closed At") ].

(** [max_length] of [ProblemHistory.field]. *)
Definition field_max_length : nat := 50.

(** * Vocabulary of the properties *)

(** ** Attributes and history rows *)

(** A name that every instance has as an attribute. *)
Definition known (f : string) : Prop :=
  forall o, is_Some (Problem_attr o f).

(** Whether the stored and the in-memory value of an attribute are unequal
    under Python's [!=]. *)
Definition value_differs (old self : Problem) (f : string) : bool :=
  match Problem_attr old f, Problem_attr self f with
  | Some a, Some b => py_ne a b
  | _, _ => false
  end.

(** What a history row written for [old] and [self] by [user] holds. *)
Definition row_of_change (old self : Problem) (user : option Z)
    (r : ProblemHistory) : Prop :=
  h_problem r = pk self /\
  h_changed_by r = user /\
  Problem_attr old (h_field r) = Some (h_old_value r) /\
  Problem_attr self (h_field r) = Some (h_new_value r).

(** ** The outcome of [save] *)

Definition start_fires (self : Problem) : bool :=
  String.eqb (status self) "engaged" && is_None (started_at self).

Definition close_fires (self : Problem) : bool :=
  (String.eqb (status self) "done" || String.eqb (status self) "cancelled")
  && is_None (closed_at self).

Definition ticks_of (b : bool) : nat := if b then 1%nat else 0%nat.

(** The instance that [auto_timestamps] returns when the clock is [clk]
    and [n] readings have been taken. *)
Definition stamped (clk : nat -> Z) (n : nat) (self : Problem) : Problem :=
  set_closed_at
    (if close_fires self then Some (clk (ticks_of (start_fires self) + n)%nat)
     else closed_at self)
    (set_started_at
       (if start_fires self then Some (clk n) else started_at self)
       self).

(** The columns that the caller and [save] decide: everything but the
    primary key and the two framework-managed timestamps. *)
Definition user_columns (o : Problem) : Problem :=
  set_pk None (set_created_at None (set_updated_at None o)).

(** The actor stamping of [save]: [updated_by] on an update, [created_by]
    and [updated_by] on a create, nothing without an actor. *)
Definition stamp_actor (user : option Z) (self : Problem) : Problem :=
  match user with
  | None => self
  | Some _ =>
      if pk_truthy (pk self) then set_updated_by user self
      else set_updated_by user (set_created_by user self)
  end.

(** The worlds in which [save] of [self] does not raise: a fresh instance
    needs a free key, an update needs its row. *)
Definition saveable (self : Problem) (w : World) : Prop :=
  match pk self with
  | None => problems w !! next_pk w = None
  | Some id => id <> 0 -> is_Some (problems w !! id)
  end.

(** ** Stored rows and their timestamps *)

(** A row whose timestamps agree with its status: started when engaged,
    closed when done or cancelled. *)
Definition timestamps_consistent (row : Problem) : Prop :=
  (status row = "engaged" -> started_at row <> None) /\
  (status row = "done" \/ status row = "cancelled" -> closed_at row <> None).

(** A status (a scale) that is one of the choices of the model. *)
Definition valid_status (p : Problem) : Prop :=
  In (status p) (map fst STATUS_CHOICES).

Definition valid_scale (p : Problem) : Prop :=
  In (scale p) (map fst SCALE_CHOICES).

(** ** Sequences of updates *)

(** A sequence of updates: the instances handed to [save], one after the
    other, each with its actor; an exception ends the sequence. *)
Fixpoint save_all (saves : list (Problem * option Z)) : M unit :=
  match saves with
  | [] => ret tt
  | (self, user) :: rest => save self user;;; save_all rest
  end.

(** ** The overdue predicate of the specification *)

(** The overdue predicate in the words of the specification: the estimate
    and the start are present, the status is open, and start plus estimate
    lies strictly before [t]. *)
Definition spec_is_overdue (p : Problem) (t : Z) : Prop :=
  exists s e,
    etd p = Some e /\ started_at p = Some s /\
    (status p = "new" \/ status p = "engaged" \/ status p = "blocked") /\
    s + e < t.

(** ** Example data *)

Definition example_clock (n : nat) : Z := 1000 + Z.of_nat n.

(** A stored task in status [new], never started, estimated at two days. *)
Definition example_row : Problem :=
  mkProblem None "Fix login" None "task" None None None "new" 0%float
    (Some 172800000000) None (Some 3) (Some 10) (Some 10) None None.

Definition example_world : World :=
  mkWorld {[ 1 := example_row ]} 2 [] example_clock 0.

(** The instance of that row as loaded, and the same moved to [engaged]. *)
Definition example_loaded : Problem := set_pk (Some 1) example_row.

Definition example_engaged : Problem := set_status "engaged" example_loaded.

(** A started problem, and two updates of it: one whose instance has
    [started_at] cleared and the status back to [blocked], one whose
    instance has [started_at] cleared and the status still [engaged]. *)
Definition started_world : World :=
  mkWorld {[ 1 := set_started_at (Some 500) (set_status "engaged" example_row) ]}
    2 [] example_clock 0.

Definition cleared_blocked : Problem :=
  set_started_at None (set_status "blocked" example_loaded).

Definition cleared_engaged : Problem :=
  set_started_at None (set_status "engaged" example_loaded).

(** The started problem of [started_world] as loaded, moved to [done]. *)
Definition started_done : Problem :=
  set_status "done" (set_started_at (Some 500) example_loaded).

(** * Properties *)

(** ** The monad *)

Lemma bind_Ok {A B} (c : M A) (k : A -> M B) w w' a :
  c w = (w', Ok a) -> bind c k w = k a w'.
Proof. intros E. unfold bind. now rewrite E. Qed.

Lemma getattr_Ok o f v w :
  Problem_attr o f = Some v -> getattr o f w = (w, Ok v).
Proof. intros E. unfold getattr. now rewrite E. Qed.

Lemma World_eta w :
  mkWorld (problems w) (next_pk w) (history w) (clock w) (ticks w) = w.
Proof. now destruct w. Qed.

(** ** Attribute access *)

Lemma track_fields_known : Forall known track_fields.
Proof.
  unfold track_fields.
  repeat (constructor; [intros o; cbn; eexists; reflexivity |]).
  constructor.
Qed.

Lemma track_fields_NoDup : List.NoDup track_fields.
Proof.
  apply NoDup_ListNoDup, (bool_decide_unpack _). vm_compute. reflexivity.
Qed.

(** The primary key is not one of the tracked attributes. *)
Lemma Problem_attr_set_pk k o f :
  In f track_fields -> Problem_attr (set_pk k o) f = Problem_attr o f.
Proof.
  unfold track_fields. cbn [In].
  intros H. repeat (destruct H as [<- | H]; [reflexivity |]). destruct H.
Qed.

(** ** The diff loop *)

Section Loop.
Variables (old self : Problem) (user : option Z).

(** The loop never raises on known attributes; it touches the history
    table and the clock only, and appends, in the order of [fields], one
    row for each field whose values differ. *)
Lemma log_changes_spec (fields : list string) :
  Forall known fields ->
  forall w, exists recs,
    log_changes old self user fields w =
      (mkWorld (problems w) (next_pk w) (history w ++ recs) (clock w)
         (ticks w + length recs)%nat, Ok tt) /\
    map h_field recs = List.filter (value_differs old self) fields /\
    Forall (row_of_change old self user) recs.
Proof.
  induction 1 as [| f rest Hf _ IH]; intros w.
  - exists []. cbn. rewrite app_nil_r, Nat.add_0_r, World_eta. auto.
  - destruct (Hf old) as [a Ha], (Hf self) as [b Hb].
    cbn [log_changes List.filter]. unfold value_differs at 1.
    rewrite Ha, Hb.
    rewrite (bind_Ok _ _ _ _ _ (getattr_Ok _ _ _ w Ha)).
    rewrite (bind_Ok _ _ _ _ _ (getattr_Ok _ _ _ w Hb)).
    destruct (py_ne a b).
    + set (r := mkHistory (pk self) f a b user (clock w (ticks w))).
      set (w1 := mkWorld (problems w) (next_pk w) (history w ++ [r])
                   (clock w) (S (ticks w))).
      destruct (IH w1) as (recs & E & Hm & Hr).
      rewrite (bind_Ok _ _ _ w1 tt) by reflexivity.
      rewrite E. subst w1. cbn [problems next_pk history clock ticks].
      exists (r :: recs). split; [| split].
      * rewrite <- app_assoc. cbn [app length].
        rewrite Nat.add_succ_r. reflexivity.
      * cbn. now rewrite Hm.
      * constructor; [| exact Hr]. repeat split; assumption.
    + rewrite (bind_Ok _ _ _ w tt) by reflexivity.
      destruct (IH w) as (recs & E & Hm & Hr).
      exists recs. auto.
Qed.
End Loop.

(** ** The timestamp rule and the write *)

Lemma auto_timestamps_eq self w :
  auto_timestamps self w =
    (mkWorld (problems w) (next_pk w) (history w) (clock w)
       (ticks_of (close_fires self) + (ticks_of (start_fires self) + ticks w))%nat,
     Ok (stamped (clock w) (ticks w) self)).
Proof.
  unfold auto_timestamps, stamped, start_fires, close_fires.
  destruct self as [k ti de sc pa ch ex st pr et cb ub ca ua sa cl].
  cbn [status started_at closed_at].
  destruct (String.eqb st "engaged" && is_None sa);
    destruct ((String.eqb st "done" || String.eqb st "cancelled") && is_None cl) eqn:Ec;
    cbv [bind ret now set_started_at set_closed_at ticks_of]; cbn;
    rewrite ?Ec; cbn; try rewrite World_eta; reflexivity.
Qed.

Lemma Model_save_spec self w :
  (pk self = None -> problems w !! next_pk w = None) ->
  exists w' self' id,
    Model_save self w = (w', Ok self') /\
    pk self' = Some id /\
    (pk self = None \/ pk self = Some id) /\
    problems w' = <[id := self']> (problems w) /\
    history w' = history w /\
    clock w' = clock w /\
    (ticks w <= ticks w')%nat /\
    user_columns self' = user_columns self.
Proof.
  intros Hfree. unfold Model_save.
  destruct (pk self) as [id |] eqn:Hpk.
  - destruct (problems w !! id) as [row |] eqn:Hrow.
    + eexists _, _, id.
      cbv [bind row_exists now write_row ret]. rewrite Hrow. cbn.
      repeat split; try reflexivity;
        try (destruct self; cbn in *; congruence); auto; cbn; lia.
    + eexists _, _, id.
      cbv [bind row_exists now write_row ret]. rewrite Hrow. cbn.
      repeat split; try reflexivity;
        try (destruct self; cbn in *; congruence); auto; cbn; lia.
  - specialize (Hfree eq_refl).
    eexists _, _, (next_pk w).
    cbv [bind take_next_pk now write_row ret]. rewrite Hfree. cbn.
    repeat split; try reflexivity; auto; cbn; lia.
Qed.

Lemma Model_save_taken self w :
  pk self = None -> is_Some (problems w !! next_pk w) ->
  Model_save self w = (w, Raise IntegrityError).
Proof.
  intros Hpk [row Hrow]. unfold Model_save. rewrite Hpk.
  cbv [bind take_next_pk]. now rewrite Hrow.
Qed.

Lemma user_columns_inv a b :
  user_columns a = user_columns b ->
  title a = title b /\ description a = description b /\ scale a = scale b /\
  parent a = parent b /\ chief a = chief b /\ executive a = executive b /\
  status a = status b /\ priority a = priority b /\ etd a = etd b /\
  created_by a = created_by b /\ updated_by a = updated_by b /\
  started_at a = started_at b /\ closed_at a = closed_at b.
Proof.
  destruct a, b. cbv [user_columns set_pk set_created_at set_updated_at].
  cbn. intros H. injection H as -> -> -> -> -> -> -> -> -> -> -> -> ->.
  repeat split.
Qed.

(** ** [save] as a whole *)

Lemma pk_truthy_true k :
  pk_truthy k = true <-> exists id, k = Some id /\ id <> 0.
Proof.
  destruct k as [id |]; cbn.
  - rewrite negb_true_iff, Z.eqb_neq. split; [eauto |].
    intros (id' & [= <-] & H). exact H.
  - split; [discriminate | intros (? & [=] & _)].
Qed.

Lemma save_missing self user w id :
  pk self = Some id -> id <> 0 -> problems w !! id = None ->
  save self user w = (w, Raise DoesNotExist).
Proof.
  intros Hpk Hid Hrow. unfold save. rewrite Hpk. cbn [pk_truthy].
  apply Z.eqb_neq in Hid. rewrite Hid. cbn [negb].
  cbv [bind Problem_objects_get]. now rewrite Hrow.
Qed.

Lemma save_spec self user w :
  saveable self w ->
  exists recs w' self' id,
    save self user w = (w', Ok self') /\
    history w' = (history w ++ recs)%list /\
    (pk_truthy (pk self) = false -> recs = []) /\
    (forall old,
        pk_truthy (pk self) = true ->
        Problem_objects_get (pk self) w = (w, Ok old) ->
        map h_field recs = List.filter (value_differs old self) track_fields /\
        Forall (row_of_change old self user) recs) /\
    pk self' = Some id /\
    (pk self = None \/ pk self = Some id) /\
    problems w' = <[id := self']> (problems w) /\
    clock w' = clock w /\
    user_columns self' =
      user_columns
        (stamped (clock w) (ticks w + length recs) (stamp_actor user self)).
Proof.
  intros Hs. unfold save, stamp_actor.
  destruct (pk_truthy (pk self)) eqn:Ht.
  - (* update *)
    destruct (proj1 (pk_truthy_true _) Ht) as (id0 & Hpk & Hid).
    unfold saveable in Hs. rewrite Hpk in Hs.
    destruct (Hs Hid) as [row Hrow].
    assert (Hget : Problem_objects_get (pk self) w = (w, Ok (set_pk (Some id0) row))).
    { unfold Problem_objects_get. now rewrite Hpk, Hrow. }
    destruct (log_changes_spec (set_pk (Some id0) row) self user track_fields
                track_fields_known w) as (recs & Elog & Hm & Hr).
    set (w1 := mkWorld (problems w) (next_pk w) (history w ++ recs) (clock w)
                 (ticks w + length recs)) in *.
    set (self1 := match user with Some _ => set_updated_by user self | None => self end).
    assert (Hpk1 : pk (stamped (clock w1) (ticks w1) self1) = pk self).
    { subst self1. destruct user; reflexivity. }
    destruct (Model_save_spec (stamped (clock w1) (ticks w1) self1)
                (mkWorld (problems w1) (next_pk w1) (history w1) (clock w1)
                   (ticks_of (close_fires self1)
                    + (ticks_of (start_fires self1) + ticks w1))%nat))
      as (w' & self' & id & Es & Hpk' & Hor & Hdb & Hh & Hc & _ & Hcol).
    { rewrite Hpk1, Hpk. discriminate. }
    exists recs, w', self', id.
    rewrite (bind_Ok _ _ w w1 self1).
    2:{ rewrite (bind_Ok _ _ _ _ _ Hget). now rewrite (bind_Ok _ _ _ _ _ Elog). }
    rewrite (bind_Ok _ _ _ _ _ (auto_timestamps_eq self1 w1)).
    split; [exact Es |].
    split; [exact Hh |].
    split; [discriminate |].
    split.
    { intros old _ Hold. rewrite Hget in Hold. injection Hold as <-. auto. }
    split; [exact Hpk' |].
    split.
    { rewrite Hpk1 in Hor. exact Hor. }
    split; [exact Hdb |].
    split; [exact Hc |].
    subst self1. destruct user; exact Hcol.
  - (* create *)
    set (self1 := match user with
                  | Some _ => set_updated_by user (set_created_by user self)
                  | None => self
                  end).
    assert (Hpk1 : pk (stamped (clock w) (ticks w) self1) = pk self).
    { subst self1. destruct user; reflexivity. }
    destruct (Model_save_spec (stamped (clock w) (ticks w) self1)
                (mkWorld (problems w) (next_pk w) (history w) (clock w)
                   (ticks_of (close_fires self1)
                    + (ticks_of (start_fires self1) + ticks w))%nat))
      as (w' & self' & id & Es & Hpk' & Hor & Hdb & Hh & Hc & _ & Hcol).
    { rewrite Hpk1. intros Hn. unfold saveable in Hs. rewrite Hn in Hs. exact Hs. }
    exists [], w', self', id.
    rewrite (bind_Ok _ _ w w self1) by reflexivity.
    rewrite (bind_Ok _ _ _ _ _ (auto_timestamps_eq self1 w)).
    rewrite app_nil_r, Nat.add_0_r.
    split; [exact Es |].
    split; [exact Hh |].
    split; [reflexivity |].
    split; [discriminate |].
    split; [exact Hpk' |].
    split.
    { rewrite Hpk1 in Hor. exact Hor. }
    split; [exact Hdb |].
    split; [exact Hc |].
    subst self1. destruct user; exact Hcol.
Qed.

Lemma save_taken self user w :
  pk self = None -> is_Some (problems w !! next_pk w) ->
  exists w', save self user w = (w', Raise IntegrityError) /\
             history w' = history w /\ problems w' = problems w.
Proof.
  intros Hpk Hrow. unfold save. rewrite Hpk. cbn [pk_truthy].
  set (self1 := match user with
                | Some _ => set_updated_by user (set_created_by user self)
                | None => self
                end).
  assert (Hpk1 : pk (stamped (clock w) (ticks w) self1) = None).
  { subst self1. destruct user; exact Hpk. }
  rewrite (bind_Ok _ _ w w self1) by reflexivity.
  rewrite (bind_Ok _ _ _ _ _ (auto_timestamps_eq self1 w)).
  rewrite Model_save_taken by assumption.
  eexists. split; [reflexivity |]. split; reflexivity.
Qed.

(** [save] returns normally exactly in the saveable worlds. *)
Lemma save_Ok_saveable self user w w' self' :
  save self user w = (w', Ok self') -> saveable self w.
Proof.
  intros E. unfold saveable.
  destruct (pk self) as [id |] eqn:Hpk.
  - intros Hid. destruct (problems w !! id) eqn:Hrow; [eauto |].
    rewrite (save_missing _ _ _ _ Hpk Hid Hrow) in E. discriminate.
  - destruct (problems w !! next_pk w) eqn:Hrow; [| reflexivity].
    destruct (save_taken self user w Hpk) as (w'' & E' & _); [eauto |].
    rewrite E' in E. discriminate.
Qed.

(** An update whose row is found can be saved. *)
Lemma update_saveable self w old :
  pk_truthy (pk self) = true ->
  Problem_objects_get (pk self) w = (w, Ok old) ->
  saveable self w.
Proof.
  intros Ht Hget.
  destruct (proj1 (pk_truthy_true _) Ht) as (id & Hpk & Hid).
  unfold saveable. rewrite Hpk. intros _.
  unfold Problem_objects_get in Hget. rewrite Hpk in Hget.
  destruct (problems w !! id); [eauto | discriminate].
Qed.

(** The actor stamping and the timestamp rule leave the rest alone. *)
Lemma stamp_actor_fields user self :
  pk (stamp_actor user self) = pk self /\
  status (stamp_actor user self) = status self /\
  started_at (stamp_actor user self) = started_at self /\
  closed_at (stamp_actor user self) = closed_at self.
Proof.
  unfold stamp_actor. destruct user; [destruct (pk_truthy (pk self)) |]; repeat split.
Qed.

Lemma start_fires_true self :
  start_fires self = true <-> status self = "engaged" /\ started_at self = None.
Proof.
  unfold start_fires. rewrite andb_true_iff, String.eqb_eq.
  destruct (started_at self); cbn; intuition congruence.
Qed.

Lemma close_fires_true self :
  close_fires self = true <->
  (status self = "done" \/ status self = "cancelled") /\ closed_at self = None.
Proof.
  unfold close_fires. rewrite andb_true_iff, orb_true_iff, !String.eqb_eq.
  destruct (closed_at self); cbn; intuition congruence.
Qed.

Lemma fires_exclusive self :
  close_fires self = true -> start_fires self = false.
Proof.
  rewrite close_fires_true. intros [Hs _].
  destruct (start_fires self) eqn:E; [| reflexivity].
  apply start_fires_true in E. destruct E as [E _].
  rewrite E in Hs. destruct Hs; discriminate.
Qed.

(** ** C1: the history of an update that starts a problem *)

(** C1. The specification wants the [started_at] that the timestamp rule
    sets during an update to appear in the history of that same update.
    The code compares the fields before it applies the rule: updating the
    stored [new] problem to [engaged] writes the single history row
    [status] (new to engaged), although [started_at] goes from [None] to
    the reading of the clock in the stored row. *)
Theorem save_engage_logs_status_only :
  exists w' self',
    save example_engaged (Some 7) example_world = (w', Ok self') /\
    started_at <$> problems example_world !! 1 = Some None /\
    started_at <$> problems w' !! 1 = Some (Some 1001) /\
    map (fun r => (h_field r, h_old_value r, h_new_value r)) (history w') =
      [("status", VStr "new", VStr "engaged")].
Proof.
  eexists _, _. split; [vm_compute; reflexivity |].
  vm_compute. repeat split.
Qed.

(** The same in general: an update that starts a problem (the stored row
    and the instance have no [started_at], the instance is [engaged])
    stores a [started_at] and writes no [started_at] history row. *)
Lemma rule_stamp_is_not_logged self user w old :
  pk_truthy (pk self) = true ->
  Problem_objects_get (pk self) w = (w, Ok old) ->
  started_at old = None -> status self = "engaged" -> started_at self = None ->
  exists recs w' self' t,
    save self user w = (w', Ok self') /\
    history w' = (history w ++ recs)%list /\
    started_at self' = Some t /\
    ~ In "started_at" (map h_field recs).
Proof.
  intros Ht Hget Hold Hst Hsa.
  pose proof (update_saveable _ _ _ Ht Hget) as Hs.
  destruct (save_spec self user w Hs)
    as (recs & w' & self' & id & E & Hh & _ & Hupd & _ & _ & _ & _ & Hcol).
  destruct (Hupd old Ht Hget) as [Hm _].
  apply user_columns_inv in Hcol.
  destruct Hcol as (_ & _ & _ & _ & _ & _ & _ & _ & _ & _ & _ & Hsa' & _).
  destruct (stamp_actor_fields user self) as (_ & Hst0 & Hsa0 & _).
  unfold stamped in Hsa'. cbn in Hsa'.
  assert (F : start_fires (stamp_actor user self) = true).
  { apply start_fires_true. now rewrite Hst0, Hsa0. }
  rewrite F in Hsa'.
  eexists recs, w', self', _.
  split; [exact E |]. split; [exact Hh |]. split; [exact Hsa' |].
  rewrite Hm. intros Hin. apply filter_In in Hin. destruct Hin as [_ Hd].
  unfold value_differs in Hd. cbn in Hd. rewrite Hold, Hsa in Hd. discriminate.
Qed.

(** ** C2: the history of an update and the fields that changed *)

Lemma filter_all_false {A} (p : A -> bool) (l : list A) :
  (forall x, In x l -> p x = false) -> List.filter p l = [].
Proof.
  induction l as [| x l IH]; intros H; [reflexivity |].
  cbn. rewrite (H x (or_introl eq_refl)).
  apply IH. intros y Hy. apply H. now right.
Qed.

(** C2. The specification wants one history row for every tracked field
    whose value before the update and value after it differ. The loop
    compares the stored row with the instance before the timestamp rule
    has run: closing the stored problem (started at 500, [engaged]) by an
    update to [done] changes two tracked fields of the stored row,
    [status] and [closed_at] (from [None] to the reading 1001 of the
    clock), the other eight being equal, and writes the single history
    row [status]. *)
Theorem save_close_logs_status_only :
  exists w' self' old new,
    save started_done (Some 7) started_world = (w', Ok self') /\
    problems started_world !! 1 = Some old /\
    problems w' !! 1 = Some new /\
    (status old, status new) = ("engaged", "done") /\
    (closed_at old, closed_at new) = (None, Some 1001) /\
    title old = title new /\
    description old = description new /\
    priority old = priority new /\
    chief old = chief new /\
    executive old = executive new /\
    etd old = etd new /\
    scale old = scale new /\
    started_at old = started_at new /\
    map h_field (history w') = ["status"].
Proof.
  eexists _, _, _, _.
  split; [vm_compute; reflexivity |].
  split; [vm_compute; reflexivity |].
  split; [vm_compute; reflexivity |].
  vm_compute. repeat split.
Qed.

(** The loop by itself, relative to the instance handed to [save]: an
    update of an existing problem (the instance has a true primary key and
    [old] is the row loaded for it) returns normally and appends to the
    history exactly the rows [recs]: their fields are, in the order of
    [track_fields], the tracked fields whose stored value and in-memory
    value are unequal under [!=]; no field occurs twice; a field has a row
    if and only if it is tracked and differs; and each row carries the
    problem, the actor, the stored value and the in-memory value of its
    field. *)
Theorem save_history_is_tracked_diff self user w old :
  pk_truthy (pk self) = true ->
  Problem_objects_get (pk self) w = (w, Ok old) ->
  exists recs w' self',
    save self user w = (w', Ok self') /\
    history w' = (history w ++ recs)%list /\
    map h_field recs = List.filter (value_differs old self) track_fields /\
    List.NoDup (map h_field recs) /\
    (forall f, In f (map h_field recs) <->
               In f track_fields /\ value_differs old self f = true) /\
    Forall (row_of_change old self user) recs.
Proof.
  intros Ht Hget.
  pose proof (update_saveable _ _ _ Ht Hget) as Hs.
  destruct (save_spec self user w Hs)
    as (recs & w' & self' & id & E & Hh & _ & Hupd & _).
  destruct (Hupd old Ht Hget) as [Hm Hr].
  exists recs, w', self'.
  split; [exact E |]. split; [exact Hh |]. split; [exact Hm |].
  split; [| split; [| exact Hr]].
  - rewrite Hm. apply List.NoDup_filter, track_fields_NoDup.
  - intros f. rewrite Hm. apply filter_In.
Qed.

Lemma save_history_is_tracked_diff_witness :
  exists recs w' self',
    save example_engaged (Some 7) example_world = (w', Ok self') /\
    history w' = (history example_world ++ recs)%list /\
    map h_field recs =
      List.filter (value_differs example_loaded example_engaged) track_fields /\
    List.NoDup (map h_field recs) /\
    (forall f, In f (map h_field recs) <->
               In f track_fields /\
               value_differs example_loaded example_engaged f = true) /\
    Forall (row_of_change example_loaded example_engaged (Some 7)) recs.
Proof.
  apply (save_history_is_tracked_diff example_engaged (Some 7) example_world
           example_loaded).
  - reflexivity.
  - reflexivity.
Defined.

(** A change of an untracked column alone ([parent], here) is stored and
    leaves no history row. *)
Example untracked_change_not_logged :
  let self :=
    mkProblem (Some 1) "Fix login" None "task" (Some 4) None None "new" 0%float
      (Some 172800000000) None (Some 3) (Some 10) (Some 10) None None in
  parent <$> problems example_world !! 1 = Some None /\
  parent <$> problems (fst (save self (Some 7) example_world)) !! 1
    = Some (Some 4) /\
  history (fst (save self (Some 7) example_world)) = [].
Proof. vm_compute. repeat split. Qed.

(** ** C3: the timestamp rule *)

(** C3. Whenever [save] goes through, on a create as on an update, the
    saved instance is the stored row, and with [n] the number of clock
    readings taken before the rule runs (those of the history rows just
    written): [started_at] is the reading [n] of the clock when the status
    is [engaged] and [started_at] was unset, and is unchanged in every
    other case; [closed_at] is the reading [n] when the status is [done]
    or [cancelled] and [closed_at] was unset, and is unchanged in every
    other case. In particular a field that is set is never cleared or
    overwritten, whatever the status. *)
Theorem save_auto_timestamps self user w :
  saveable self w ->
  exists recs w' self' id,
    save self user w = (w', Ok self') /\
    history w' = (history w ++ recs)%list /\
    pk self' = Some id /\
    problems w' !! id = Some self' /\
    let n := (ticks w + length recs)%nat in
    (status self = "engaged" /\ started_at self = None ->
     started_at self' = Some (clock w n)) /\
    (~ (status self = "engaged" /\ started_at self = None) ->
     started_at self' = started_at self) /\
    ((status self = "done" \/ status self = "cancelled") /\ closed_at self = None ->
     closed_at self' = Some (clock w n)) /\
    (~ ((status self = "done" \/ status self = "cancelled") /\ closed_at self = None) ->
     closed_at self' = closed_at self) /\
    (forall t, started_at self = Some t -> started_at self' = Some t) /\
    (forall t, closed_at self = Some t -> closed_at self' = Some t).
Proof.
  intros Hs.
  destruct (save_spec self user w Hs)
    as (recs & w' & self' & id & E & Hh & _ & _ & Hpk & _ & Hdb & _ & Hcol).
  exists recs, w', self', id.
  split; [exact E |]. split; [exact Hh |]. split; [exact Hpk |].
  split; [rewrite Hdb; apply lookup_insert_eq |].
  apply user_columns_inv in Hcol.
  destruct Hcol as (_ & _ & _ & _ & _ & _ & _ & _ & _ & _ & _ & Hsa & Hcl).
  destruct (stamp_actor_fields user self) as (_ & Hst & Hsa0 & Hcl0).
  set (a := stamp_actor user self) in *.
  assert (Hsf : start_fires a = start_fires self).
  { unfold start_fires. now rewrite Hst, Hsa0. }
  assert (Hcf : close_fires a = close_fires self).
  { unfold close_fires. now rewrite Hst, Hcl0. }
  cbn zeta. unfold stamped in Hsa, Hcl. cbn in Hsa, Hcl.
  rewrite Hsf, Hsa0 in Hsa. rewrite Hsf, Hcf, Hcl0 in Hcl.
  assert (A1 : status self = "engaged" /\ started_at self = None ->
               started_at self' = Some (clock w (ticks w + length recs)%nat)).
  { intros H. apply start_fires_true in H. now rewrite H in Hsa. }
  assert (A2 : ~ (status self = "engaged" /\ started_at self = None) ->
               started_at self' = started_at self).
  { intros H. destruct (start_fires self) eqn:F; [| exact Hsa].
    apply start_fires_true in F. contradiction. }
  assert (A3 : (status self = "done" \/ status self = "cancelled")
               /\ closed_at self = None ->
               closed_at self' = Some (clock w (ticks w + length recs)%nat)).
  { intros H. apply close_fires_true in H.
    rewrite H, (fires_exclusive _ H) in Hcl. exact Hcl. }
  assert (A4 : ~ ((status self = "done" \/ status self = "cancelled")
                  /\ closed_at self = None) ->
               closed_at self' = closed_at self).
  { intros H. destruct (close_fires self) eqn:F; [| exact Hcl].
    apply close_fires_true in F. contradiction. }
  repeat split; try assumption.
  - intros t Ht. rewrite <- Ht. apply A2. intros [_ Hn]. congruence.
  - intros t Ht. rewrite <- Ht. apply A4. intros [_ Hn]. congruence.
Qed.

Lemma save_auto_timestamps_witness :
  exists recs w' self' id,
    save example_engaged (Some 7) example_world = (w', Ok self') /\
    history w' = (history example_world ++ recs)%list /\
    pk self' = Some id /\
    problems w' !! id = Some self' /\
    let n := (ticks example_world + length recs)%nat in
    (status example_engaged = "engaged" /\ started_at example_engaged = None ->
     started_at self' = Some (clock example_world n)) /\
    (~ (status example_engaged = "engaged" /\ started_at example_engaged = None) ->
     started_at self' = started_at example_engaged) /\
    ((status example_engaged = "done" \/ status example_engaged = "cancelled")
     /\ closed_at example_engaged = None ->
     closed_at self' = Some (clock example_world n)) /\
    (~ ((status example_engaged = "done" \/ status example_engaged = "cancelled")
        /\ closed_at example_engaged = None) ->
     closed_at self' = closed_at example_engaged) /\
    (forall t, started_at example_engaged = Some t -> started_at self' = Some t) /\
    (forall t, closed_at example_engaged = Some t -> closed_at self' = Some t).
Proof.
  apply (save_auto_timestamps example_engaged (Some 7) example_world).
  unfold saveable. simpl. intros _. vm_compute. eauto.
Defined.

(** ** C4: a set timestamp across a sequence of updates *)

(** C4, as stated, fails: the stored [started_at] is 500; the first update
    stores [None] (cleared), the second stores the reading 1001 of the
    clock (moved). *)
Lemma started_at_not_protected :
  started_at <$> problems started_world !! 1 = Some (Some 500) /\
  (exists w' self',
      save cleared_blocked None started_world = (w', Ok self') /\
      started_at <$> problems w' !! 1 = Some None) /\
  (exists w' self',
      save cleared_engaged None started_world = (w', Ok self') /\
      started_at <$> problems w' !! 1 = Some (Some 1001)).
Proof.
  split; [vm_compute; reflexivity |].
  split; eexists _, _; (split; [vm_compute; reflexivity |]); vm_compute; reflexivity.
Qed.

(** One update that carries the stored value of a timestamp keeps it. *)
Lemma save_keeps_row self user w id row :
  pk self = Some id -> problems w !! id = Some row ->
  exists w' row',
    save self user w = (w', Ok row') /\
    problems w' !! id = Some row' /\
    (forall t, started_at self = Some t -> started_at row' = Some t) /\
    (forall t, closed_at self = Some t -> closed_at row' = Some t).
Proof.
  intros Hpk Hrow.
  assert (Hs : saveable self w).
  { unfold saveable. rewrite Hpk. eauto. }
  destruct (save_spec self user w Hs)
    as (recs & w' & self' & id' & E & _ & _ & _ & Hpk' & Hor & Hdb & _ & Hcol).
  assert (id' = id) as ->.
  { destruct Hor as [Hn | Hn]; rewrite Hpk in Hn; congruence. }
  exists w', self'. split; [exact E |].
  split; [rewrite Hdb; apply lookup_insert_eq |].
  apply user_columns_inv in Hcol.
  destruct Hcol as (_ & _ & _ & _ & _ & _ & _ & _ & _ & _ & _ & Hsa & Hcl).
  destruct (stamp_actor_fields user self) as (_ & Hst & Hsa0 & Hcl0).
  unfold stamped in Hsa, Hcl. cbn in Hsa, Hcl.
  unfold start_fires in Hsa. unfold close_fires in Hcl.
  rewrite Hsa0 in Hsa. rewrite Hcl0 in Hcl.
  split; intros t Ht.
  - rewrite Ht in Hsa. cbn in Hsa. now rewrite andb_false_r in Hsa.
  - rewrite Ht in Hcl. cbn in Hcl. now rewrite andb_false_r in Hcl.
Qed.

(** C4, amended. [save] has no guard on the two timestamps: it stores the
    value that the instance carries, and only fills a field that is unset.
    So for every sequence of updates of one stored problem (every update
    of it returns normally): if the stored [started_at] is [t] and every
    instance of the sequence carries [started_at = t], the stored
    [started_at] is still [t] at the end; likewise for [closed_at]. *)
Theorem timestamps_kept_by_updates_that_carry_them id saves :
  Forall (fun su => pk (fst su) = Some id) saves ->
  forall w row,
    problems w !! id = Some row ->
    exists w' row',
      save_all saves w = (w', Ok tt) /\
      problems w' !! id = Some row' /\
      (forall t, started_at row = Some t ->
                 Forall (fun su => started_at (fst su) = Some t) saves ->
                 started_at row' = Some t) /\
      (forall t, closed_at row = Some t ->
                 Forall (fun su => closed_at (fst su) = Some t) saves ->
                 closed_at row' = Some t).
Proof.
  induction 1 as [| [self user] rest Hpk _ IH]; intros w row Hrow.
  - exists w, row. repeat split; auto.
  - cbn [fst] in Hpk.
    destruct (save_keeps_row self user w id row Hpk Hrow)
      as (w1 & row1 & E & Hrow1 & Hsa & Hcl).
    destruct (IH w1 row1 Hrow1) as (w' & row' & E' & Hrow' & Hsa' & Hcl').
    exists w', row'. cbn [save_all].
    rewrite (bind_Ok _ _ _ _ _ E).
    split; [exact E' |]. split; [exact Hrow' |].
    split; intros t Ht Hall; inversion Hall as [| ? ? Hhd Htl]; subst; cbn [fst] in Hhd.
    + apply Hsa'; [apply Hsa, Hhd | exact Htl].
    + apply Hcl'; [apply Hcl, Hhd | exact Htl].
Qed.

Lemma timestamps_kept_by_updates_that_carry_them_witness :
  exists w' row',
    save_all [(set_started_at (Some 500) cleared_blocked, Some 7);
              (set_started_at (Some 500) cleared_engaged, None)]
      started_world = (w', Ok tt) /\
    problems w' !! 1 = Some row' /\
    started_at row' = Some 500.
Proof.
  destruct (timestamps_kept_by_updates_that_carry_them 1
              [(set_started_at (Some 500) cleared_blocked, Some 7);
               (set_started_at (Some 500) cleared_engaged, None)])
    with (w := started_world)
         (row := set_started_at (Some 500) (set_status "engaged" example_row))
    as (w' & row' & E & Hrow & Hsa & _).
  - repeat constructor.
  - reflexivity.
  - exists w', row'. split; [exact E |]. split; [exact Hrow |].
    apply Hsa; [reflexivity | repeat constructor].
Defined.

(** ** C5: the overdue filter *)

Lemma str_in_spec x l : str_in x l = true <-> In x l.
Proof.
  unfold str_in. rewrite existsb_exists. split.
  - intros (y & Hy & E). apply String.eqb_eq in E. now subst.
  - intros H. exists x. split; [exact H | apply String.eqb_refl].
Qed.

Lemma overdue_at_spec t qs p :
  In p (map instance (ProblemQuerySet_overdue_at t qs)) <->
  In p (map instance qs) /\ spec_is_overdue p t.
Proof.
  unfold ProblemQuerySet_overdue_at, spec_is_overdue.
  rewrite !in_map_iff. split.
  - intros (s & <- & Hs). apply filter_In in Hs. destruct Hs as [Hs Hd].
    apply in_map_iff in Hs. destruct Hs as (s0 & <- & Hs0).
    apply filter_In in Hs0. destruct Hs0 as [Hin Hc].
    cbn in Hd |- *. split; [eauto |].
    apply andb_true_iff in Hc. destruct Hc as [Hc Hst].
    apply andb_true_iff in Hc. destruct Hc as [He Hsa].
    apply str_in_spec in Hst. cbn [In] in Hst.
    destruct (etd (instance s0)) as [e |]; [| discriminate].
    destruct (started_at (instance s0)) as [s |]; [| discriminate].
    cbn in Hd. apply Z.ltb_lt in Hd.
    exists s, e. repeat split; auto. intuition auto.
  - intros ((s0 & <- & Hin) & s & e & He & Hsa & Hst & Hlt).
    exists (mkSelected (instance s0)
              (Some (sql_add (started_at (instance s0)) (etd (instance s0))))).
    split; [reflexivity |].
    apply filter_In. split.
    + apply in_map_iff. exists s0. split; [reflexivity |].
      apply filter_In. split; [exact Hin |].
      rewrite He, Hsa. cbn [is_None negb andb].
      apply str_in_spec. cbn [In]. intuition auto.
    + cbn. rewrite He, Hsa. cbn. now apply Z.ltb_lt.
Qed.

(** C5. The query [overdue] reads the clock once and always returns; with
    [t] that reading, a problem is among the selected rows if and only if
    it is among the rows queried and its estimate and start are present,
    its status is [new], [engaged] or [blocked], and start plus estimate
    is before [t]. Hence a problem that has no [started_at] is never
    selected, whatever its estimate. *)
Theorem overdue_iff_spec (qs : ProblemQuerySet) (w : World) :
  exists w' selected,
    ProblemQuerySet_overdue qs w = (w', Ok selected) /\
    (forall p, In p (map instance selected) <->
               In p (map instance qs) /\ spec_is_overdue p (clock w (ticks w))) /\
    (forall p, started_at p = None -> ~ In p (map instance selected)).
Proof.
  eexists _, _. split; [reflexivity |]. split.
  - intros p. apply overdue_at_spec.
  - intros p Hn Hin. apply overdue_at_spec in Hin.
    destruct Hin as (_ & s & e & _ & Hsa & _). congruence.
Qed.

(** The second scenario of the specification: started at 1001 with an
    estimate of two days, still [engaged] three days later. *)
Example overdue_three_days_later :
  let p := set_started_at (Some 1001) example_engaged in
  map instance
    (ProblemQuerySet_overdue_at (1001 + 259200000000)
       [mkSelected example_loaded None; mkSelected p None]) = [p].
Proof. vm_compute. reflexivity. Qed.

(** ** C6: [expected_end] *)

(** C6. The specification (and the docstring of the property) give
    [created_at + etd] whenever both are present. The code tests the truth
    value of [etd], and the zero duration is false in Python: for a
    problem created at 10 with an estimate of zero the property is [None],
    not 10. For every other estimate the property is as specified. *)
Theorem expected_end_of_zero_estimate :
  let p := mkProblem (Some 1) "Fix login" None "task" None None None "new"
             0%float (Some 0) None None (Some 10) (Some 10) None None in
  created_at p = Some 10 /\ etd p = Some 0 /\ expected_end p = None.
Proof. cbn. repeat split. Qed.

Lemma expected_end_nonzero (self : Problem) :
  etd self <> Some 0 ->
  expected_end self =
    match created_at self, etd self with
    | Some c, Some d => Some (c + d)
    | _, _ => None
    end.
Proof.
  intros Hz. unfold expected_end.
  destruct (created_at self) as [c |], (etd self) as [d |]; cbn; try reflexivity.
  destruct (Z.eqb_spec d 0) as [-> | _]; [congruence | reflexivity].
Qed.

(** ** C7: saving the same instance again *)

(** After a [save] that went through, the instance has a primary key and
    its row is the instance itself. *)
Lemma save_Ok_stored self user w w1 self1 :
  save self user w = (w1, Ok self1) ->
  exists id, pk self1 = Some id /\ problems w1 !! id = Some self1.
Proof.
  intros E.
  destruct (save_spec self user w (save_Ok_saveable _ _ _ _ _ E))
    as (recs & w' & self' & id & E' & _ & _ & _ & Hpk & _ & Hdb & _).
  rewrite E in E'. injection E' as <- <-.
  exists id. split; [exact Hpk |]. rewrite Hdb. apply lookup_insert_eq.
Qed.

(** A [save] of an instance that is stored, and whose tracked fields all
    compare equal to those of its row, writes no history. *)
Lemma save_unchanged_logs_nothing self user w id :
  pk self = Some id -> problems w !! id = Some self ->
  (forall f, In f track_fields -> value_differs self self f = false) ->
  exists w' self', save self user w = (w', Ok self') /\ history w' = history w.
Proof.
  intros Hpk Hrow Hsame.
  assert (Hs : saveable self w).
  { unfold saveable. rewrite Hpk. eauto. }
  destruct (save_spec self user w Hs)
    as (recs & w' & self' & id' & E & Hh & Hcreate & Hupd & _).
  exists w', self'. split; [exact E |].
  assert (recs = []) as ->; [| now rewrite app_nil_r in Hh].
  destruct (pk_truthy (pk self)) eqn:Ht; [| now apply Hcreate].
  assert (Hget : Problem_objects_get (pk self) w = (w, Ok (set_pk (Some id) self))).
  { unfold Problem_objects_get. now rewrite Hpk, Hrow. }
  destruct (Hupd _ eq_refl Hget) as [Hm _].
  rewrite filter_all_false in Hm.
  - now apply map_eq_nil in Hm.
  - intros f Hf. unfold value_differs.
    rewrite (Problem_attr_set_pk _ _ _ Hf). now apply Hsame.
Qed.

(** C7. When a [save] has gone through and the returned instance (with the
    timestamps that the rule may have set) is saved again, then, provided
    every tracked field of the stored row compares equal to that of the
    instance, the second [save] goes through and writes no history row. *)
Theorem second_save_logs_nothing self user user' w w1 self1 :
  save self user w = (w1, Ok self1) ->
  (forall old f,
      Problem_objects_get (pk self1) w1 = (w1, Ok old) ->
      In f track_fields -> value_differs old self1 f = false) ->
  exists w2 self2,
    save self1 user' w1 = (w2, Ok self2) /\ history w2 = history w1.
Proof.
  intros E Hsame.
  destruct (save_Ok_stored _ _ _ _ _ E) as (id & Hpk & Hrow).
  apply (save_unchanged_logs_nothing self1 user' w1 id Hpk Hrow).
  intros f Hf.
  assert (Hget : Problem_objects_get (pk self1) w1 = (w1, Ok (set_pk (Some id) self1))).
  { unfold Problem_objects_get. now rewrite Hpk, Hrow. }
  specialize (Hsame _ f Hget Hf). unfold value_differs in Hsame |- *.
  now rewrite (Problem_attr_set_pk _ _ _ Hf) in Hsame.
Qed.

Lemma second_save_logs_nothing_witness :
  exists w2 self2,
    save (set_started_at (Some 1001)
            (set_updated_at (Some 1002) (set_updated_by (Some 7) example_engaged)))
         None
         (fst (save example_engaged (Some 7) example_world)) = (w2, Ok self2) /\
    history w2 = history (fst (save example_engaged (Some 7) example_world)).
Proof.
  apply (second_save_logs_nothing example_engaged (Some 7) None example_world).
  - vm_compute. reflexivity.
  - intros old f Hget Hf.
    vm_compute in Hget. injection Hget as <-.
    unfold track_fields in Hf. cbn [In] in Hf.
    repeat (destruct Hf as [<- | Hf]; [vm_compute; reflexivity |]). destruct Hf.
Defined.

(** Python's [==] is reflexive on every value but the float [nan]. *)
Lemma py_eq_refl v :
  match v with VFloat x => PrimFloat.eqb x x = true | _ => True end ->
  py_eq v v = true.
Proof.
  destruct v; cbn; intros H;
    auto using String.eqb_refl, Z.eqb_refl.
Qed.

Lemma value_differs_refl self f :
  PrimFloat.eqb (priority self) (priority self) = true ->
  In f track_fields -> value_differs self self f = false.
Proof.
  intros Hnum Hf. unfold track_fields in Hf. cbn [In] in Hf.
  unfold value_differs, py_ne.
  repeat (destruct Hf as [<- | Hf];
          [cbn [Problem_attr String.eqb Ascii.eqb Bool.eqb];
           rewrite py_eq_refl; [reflexivity |];
           try exact Hnum; try exact I;
           match goal with |- context [of_opt _ ?o] => now destruct o end |]).
  destruct Hf.
Qed.

(** The premise of the property holds for every instance whose priority is
    a number: saving an instance twice in a row then logs nothing the
    second time. *)
Lemma save_twice_logs_nothing self user user' w w1 self1 :
  PrimFloat.eqb (priority self) (priority self) = true ->
  save self user w = (w1, Ok self1) ->
  exists w2 self2,
    save self1 user' w1 = (w2, Ok self2) /\ history w2 = history w1.
Proof.
  intros Hnum E.
  destruct (save_Ok_stored _ _ _ _ _ E) as (id & Hpk & Hrow).
  apply (save_unchanged_logs_nothing self1 user' w1 id Hpk Hrow).
  assert (Hpr : priority self1 = priority self).
  { destruct (save_spec self user w (save_Ok_saveable _ _ _ _ _ E))
      as (recs & w' & self' & id' & E' & _ & _ & _ & _ & _ & _ & _ & Hcol).
    rewrite E in E'. injection E' as <- <-.
    apply user_columns_inv in Hcol.
    destruct Hcol as (_ & _ & _ & _ & _ & _ & _ & Hp & _).
    rewrite Hp. unfold stamped, stamp_actor.
    destruct user; [destruct (pk_truthy (pk self)) |]; reflexivity. }
  intros f Hf. apply value_differs_refl; [| exact Hf]. now rewrite Hpr.
Qed.

(** With a priority that is [nan] the stored and the in-memory priority
    never compare equal, and every update logs a [priority] row. *)
Example save_nan_priority_logs :
  let p := mkProblem (Some 1) "Fix login" None "task" None None None "new"
             nan None None None (Some 10) (Some 10) None None in
  let w := mkWorld {[ 1 := p ]} 2 [] example_clock 0 in
  map h_field (history (fst (save p None w))) = ["priority"].
Proof. vm_compute. reflexivity. Qed.

(** ** C8: an update without a stored row *)

(** C8. An update (the instance has a true primary key) whose key has no
    row fails with [DoesNotExist], raised by the lookup before the loop:
    the history and the table of problems are as they were. *)
Theorem save_without_row_raises self user w :
  pk_truthy (pk self) = true ->
  (forall id, pk self = Some id -> problems w !! id = None) ->
  exists w',
    save self user w = (w', Raise DoesNotExist) /\
    history w' = history w /\
    problems w' = problems w.
Proof.
  intros Ht Hnone.
  destruct (proj1 (pk_truthy_true _) Ht) as (id & Hpk & Hid).
  exists w. rewrite (save_missing self user w id Hpk Hid (Hnone id Hpk)).
  repeat split.
Qed.

Lemma save_without_row_raises_witness :
  exists w',
    save (set_pk (Some 9) example_engaged) (Some 7) example_world =
      (w', Raise DoesNotExist) /\
    history w' = history example_world /\
    problems w' = problems example_world.
Proof.
  apply (save_without_row_raises (set_pk (Some 9) example_engaged) (Some 7)
           example_world).
  - reflexivity.
  - intros id [= <-]. vm_compute. reflexivity.
Defined.

(** ** C9: saving without an actor *)

(** C9. A [save] without an actor, create or update, goes through in every
    saveable world and leaves [created_by] and [updated_by] as the instance
    had them, in the returned instance and in the stored row; so a fresh
    instance with both unset is stored with both unset, and an update of
    an instance that carries the stored [updated_by] keeps the stored one. *)
Theorem save_without_actor_keeps_stamps self w :
  saveable self w ->
  exists w' self' id,
    save self None w = (w', Ok self') /\
    pk self' = Some id /\
    problems w' !! id = Some self' /\
    created_by self' = created_by self /\
    updated_by self' = updated_by self /\
    (forall old, problems w !! id = Some old ->
                 updated_by self = updated_by old ->
                 updated_by self' = updated_by old).
Proof.
  intros Hs.
  destruct (save_spec self None w Hs)
    as (recs & w' & self' & id & E & _ & _ & _ & Hpk & _ & Hdb & _ & Hcol).
  exists w', self', id.
  apply user_columns_inv in Hcol.
  destruct Hcol as (_ & _ & _ & _ & _ & _ & _ & _ & _ & Hcb & Hub & _).
  cbn in Hcb, Hub.
  split; [exact E |]. split; [exact Hpk |].
  split; [rewrite Hdb; apply lookup_insert_eq |].
  split; [exact Hcb |]. split; [exact Hub |].
  intros old _ Hold. congruence.
Qed.

Lemma save_without_actor_keeps_stamps_witness :
  exists w' self' id,
    save example_loaded None example_world = (w', Ok self') /\
    pk self' = Some id /\
    problems w' !! id = Some self' /\
    created_by self' = created_by example_loaded /\
    updated_by self' = updated_by example_loaded /\
    (forall old, problems example_world !! id = Some old ->
                 updated_by example_loaded = updated_by old ->
                 updated_by self' = updated_by old).
Proof.
  apply (save_without_actor_keeps_stamps example_loaded example_world).
  unfold saveable. simpl. intros _. vm_compute. eauto.
Defined.

(** ** C10: the active filter and [active_state] *)

(** C10. A row is selected by the filter [active] if and only if it is
    among the rows queried and its [active_state] is [active]; a problem in
    status [new] is classified [new]; every other status that is neither
    [engaged] nor [blocked], enumerated or not, is classified [inactive];
    the filter [active] selects exactly the rows queried whose status is
    [engaged] or [blocked]; and a problem is classified [active] exactly
    when its status is [engaged] or [blocked]. *)
Theorem active_filter_is_active_state :
  (forall (qs : ProblemQuerySet) (s : Selected),
      In s (ProblemQuerySet_active qs) <->
      In s qs /\ active_state (instance s) = "active") /\
  (forall self, status self = "new" -> active_state self = "new") /\
  (forall self,
      status self <> "new" -> status self <> "engaged" ->
      status self <> "blocked" -> active_state self = "inactive") /\
  (forall (qs : ProblemQuerySet) (s : Selected),
      In s (ProblemQuerySet_active qs) <->
      In s qs /\
      (status (instance s) = "engaged" \/ status (instance s) = "blocked")) /\
  (forall self,
      active_state self = "active" <->
      status self = "engaged" \/ status self = "blocked").
Proof.
  assert (Hfilter : forall p : Problem,
             str_in (status p) ["engaged"; "blocked"] = true <->
             status p = "engaged" \/ status p = "blocked").
  { intros p. unfold str_in. cbn [existsb].
    rewrite !orb_true_iff, !String.eqb_eq. intuition discriminate. }
  assert (Hstate : forall p : Problem,
             active_state p = "active" <->
             status p = "engaged" \/ status p = "blocked").
  { intros p. rewrite <- Hfilter. unfold active_state.
    destruct (String.eqb_spec (status p) "new") as [E | _].
    - rewrite E. cbn. split; discriminate.
    - destruct (str_in (status p) ["engaged"; "blocked"]);
        split; (reflexivity || discriminate). }
  split; [| split; [| split; [| split]]].
  - intros qs s. unfold ProblemQuerySet_active.
    now rewrite filter_In, Hfilter, Hstate.
  - intros self H. unfold active_state. now rewrite H.
  - intros self Hn He Hb. unfold active_state, str_in. cbn [existsb].
    apply String.eqb_neq in Hn, He, Hb. now rewrite Hn, He, Hb.
  - intros qs s. unfold ProblemQuerySet_active.
    now rewrite filter_In, Hfilter.
  - exact Hstate.
Qed.

Lemma active_filter_is_active_state_witness :
  active_state (set_status "archived" example_loaded) = "inactive" /\
  active_state example_engaged = "active" /\
  active_state (set_status "blocked" example_loaded) = "active" /\
  ProblemQuerySet_active
    [mkSelected example_loaded None; mkSelected example_engaged None;
     mkSelected (set_status "blocked" example_loaded) None;
     mkSelected started_done None] =
    [mkSelected example_engaged None;
     mkSelected (set_status "blocked" example_loaded) None] /\
  In (mkSelected example_engaged None)
     (ProblemQuerySet_active
        [mkSelected example_loaded None; mkSelected example_engaged None]).
Proof.
  destruct active_filter_is_active_state as (_ & _ & H3 & H4 & H5).
  split; [apply H3; discriminate |].
  split; [apply H5; left; reflexivity |].
  split; [apply H5; right; reflexivity |].
  split; [reflexivity |].
  apply H4. split; [right; left; reflexivity | left; reflexivity].
Defined.

(** * Further properties of the code *)

(** ** What a [save] that returned has done *)

Lemma save_Ok_spec self user w w' self' :
  save self user w = (w', Ok self') ->
  exists recs id,
    history w' = (history w ++ recs)%list /\
    (pk_truthy (pk self) = false -> recs = []) /\
    (forall old,
        pk_truthy (pk self) = true ->
        Problem_objects_get (pk self) w = (w, Ok old) ->
        map h_field recs = List.filter (value_differs old self) track_fields /\
        Forall (row_of_change old self user) recs) /\
    pk self' = Some id /\
    (pk self = None \/ pk self = Some id) /\
    problems w' = <[id := self']> (problems w) /\
    clock w' = clock w /\
    user_columns self' =
      user_columns
        (stamped (clock w) (ticks w + length recs) (stamp_actor user self)).
Proof.
  intros E.
  destruct (save_spec self user w (save_Ok_saveable _ _ _ _ _ E))
    as (recs & w0 & self0 & id & E0 & H).
  rewrite E in E0. injection E0 as <- <-.
  exists recs, id. exact H.
Qed.

(** The three ways [save] can end. *)
Lemma save_cases self w :
  saveable self w \/
  (exists id, pk self = Some id /\ id <> 0 /\ problems w !! id = None) \/
  (pk self = None /\ is_Some (problems w !! next_pk w)).
Proof.
  unfold saveable. destruct (pk self) as [id |].
  - destruct (problems w !! id) eqn:Hrow; [left; eauto |].
    destruct (Z.eq_dec id 0) as [-> | Hid]; [left; intros []; reflexivity |].
    right; left. eauto.
  - destruct (problems w !! next_pk w) eqn:Hrow; [right; right; eauto | now left].
Qed.

(** An exception leaves both tables as they were. *)
Lemma save_Raise_unchanged self user w w' e :
  save self user w = (w', Raise e) ->
  history w' = history w /\ problems w' = problems w.
Proof.
  intros E.
  destruct (save_cases self w) as [Hs | [(id & Hpk & Hid & Hrow) | [Hpk Hrow]]].
  - destruct (save_spec self user w Hs) as (? & ? & ? & ? & E' & _).
    rewrite E in E'. discriminate.
  - rewrite (save_missing _ _ _ _ Hpk Hid Hrow) in E. injection E as <- _. auto.
  - destruct (save_taken self user w Hpk Hrow) as (w'' & E' & Hh & Hp).
    rewrite E in E'. injection E' as <-. auto.
Qed.

Lemma set_pk_same id o : pk o = Some id -> set_pk (Some id) o = o.
Proof. destruct o. cbn. now intros ->. Qed.

(** An update with a row to load. *)
Lemma update_get self w :
  pk_truthy (pk self) = true -> saveable self w ->
  exists old, Problem_objects_get (pk self) w = (w, Ok old).
Proof.
  intros Ht Hs.
  destruct (proj1 (pk_truthy_true _) Ht) as (id & Hpk & Hid).
  unfold saveable in Hs. rewrite Hpk in Hs. destruct (Hs Hid) as [row Hrow].
  exists (set_pk (Some id) row). unfold Problem_objects_get. now rewrite Hpk, Hrow.
Qed.

(** ** X1: a create stamps the creator and writes no history *)

(** X1. A create (the instance has no true primary key) in a world where
    it can be stored returns the stored instance, writes no history row,
    and, when an actor is given, stamps that actor both as [created_by]
    and as [updated_by]. *)
Theorem save_create_stamps_creator self user w :
  pk_truthy (pk self) = false ->
  saveable self w ->
  exists w' self' id,
    save self user w = (w', Ok self') /\
    pk self' = Some id /\
    problems w' !! id = Some self' /\
    history w' = history w /\
    (forall u, user = Some u ->
               created_by self' = Some u /\ updated_by self' = Some u).
Proof.
  intros Ht Hs.
  destruct (save_spec self user w Hs)
    as (recs & w' & self' & id & E & Hh & Hnil & _ & Hpk & _ & Hdb & _ & Hcol).
  exists w', self', id.
  split; [exact E |]. split; [exact Hpk |].
  split; [rewrite Hdb; apply lookup_insert_eq |].
  split; [rewrite Hh, (Hnil Ht); apply app_nil_r |].
  intros u ->.
  apply user_columns_inv in Hcol.
  destruct Hcol as (_ & _ & _ & _ & _ & _ & _ & _ & _ & Hcb & Hub & _).
  unfold stamp_actor in Hcb, Hub. rewrite Ht in Hcb, Hub. auto.
Qed.

Lemma save_create_stamps_creator_witness :
  exists w' self' id,
    save example_row (Some 7) example_world = (w', Ok self') /\
    pk self' = Some id /\
    problems w' !! id = Some self' /\
    history w' = history example_world /\
    (forall u, Some 7 = Some u ->
               created_by self' = Some u /\ updated_by self' = Some u).
Proof.
  apply (save_create_stamps_creator example_row (Some 7) example_world).
  - reflexivity.
  - vm_compute. reflexivity.
Defined.

(** ** X2: an update stamps the updater only *)

(** X2. An update with an actor sets [updated_by] to the actor and leaves
    [created_by] as the instance had it, whether or not a tracked field
    has changed; the stored row is the returned instance. *)
Theorem save_update_stamps_updater self u w old :
  pk_truthy (pk self) = true ->
  Problem_objects_get (pk self) w = (w, Ok old) ->
  exists w' self' id,
    save self (Some u) w = (w', Ok self') /\
    pk self = Some id /\
    problems w' !! id = Some self' /\
    updated_by self' = Some u /\
    created_by self' = created_by self.
Proof.
  intros Ht Hget.
  pose proof (update_saveable _ _ _ Ht Hget) as Hs.
  destruct (save_spec self (Some u) w Hs)
    as (recs & w' & self' & id & E & _ & _ & _ & Hpk & Hor & Hdb & _ & Hcol).
  exists w', self', id.
  destruct (proj1 (pk_truthy_true _) Ht) as (id0 & Hpk0 & _).
  assert (pk self = Some id) as Hid.
  { destruct Hor as [Hn | Hn]; [congruence | exact Hn]. }
  split; [exact E |]. split; [exact Hid |].
  split; [rewrite Hdb; apply lookup_insert_eq |].
  apply user_columns_inv in Hcol.
  destruct Hcol as (_ & _ & _ & _ & _ & _ & _ & _ & _ & Hcb & Hub & _).
  unfold stamp_actor in Hcb, Hub. rewrite Ht in Hcb, Hub. auto.
Qed.

Lemma save_update_stamps_updater_witness :
  exists w' self' id,
    save example_loaded (Some 7) example_world = (w', Ok self') /\
    pk example_loaded = Some id /\
    problems w' !! id = Some self' /\
    updated_by self' = Some 7 /\
    created_by self' = created_by example_loaded.
Proof.
  apply (save_update_stamps_updater example_loaded 7 example_world example_loaded).
  - reflexivity.
  - reflexivity.
Defined.

(** ** X3: the history only grows, by valid rows *)

Lemma track_fields_are_choices : track_fields = map fst FIELD_CHOICES.
Proof. reflexivity. Qed.

Lemma track_fields_fit :
  Forall (fun f => (String.length f <= field_max_length)%nat) track_fields.
Proof. unfold track_fields, field_max_length. repeat constructor; cbn; lia. Qed.

(** X3. Whatever [save] is given and however it ends, the history after it
    is the history before it followed by at most ten new rows; each new
    row names the instance and the actor, and its field is one of the
    [FIELD_CHOICES] of [ProblemHistory] and fits the column. *)
Theorem save_history_append_only self user w :
  exists recs,
    history (fst (save self user w)) = (history w ++ recs)%list /\
    (length recs <= 10)%nat /\
    Forall (fun r =>
              h_problem r = pk self /\
              h_changed_by r = user /\
              In (h_field r) (map fst FIELD_CHOICES) /\
              (String.length (h_field r) <= field_max_length)%nat)
           recs.
Proof.
  destruct (save_cases self w) as [Hs | Hfail].
  - destruct (save_spec self user w Hs)
      as (recs & w' & self' & id & E & Hh & Hnil & Hupd & _).
    exists recs. rewrite E. cbn [fst]. split; [exact Hh |].
    destruct (pk_truthy (pk self)) eqn:Ht.
    + destruct (update_get self w Ht Hs) as [old Hget].
      destruct (Hupd old eq_refl Hget) as [Hm Hr].
      split.
      * rewrite <- (length_map h_field), Hm.
        etransitivity; [apply List.filter_length_le | reflexivity].
      * apply List.Forall_forall. intros r Hin.
        assert (Hf : In (h_field r) track_fields).
        { apply (in_map h_field) in Hin. rewrite Hm in Hin.
          now apply filter_In in Hin. }
        rewrite List.Forall_forall in Hr. destruct (Hr r Hin) as (Hp & Hu & _).
        pose proof track_fields_fit as Hfit. rewrite List.Forall_forall in Hfit.
        rewrite track_fields_are_choices in Hf.
        repeat split; auto.
    + rewrite (Hnil eq_refl). split; [cbn; lia | constructor].
  - exists []. rewrite app_nil_r.
    assert (exists w' e, save self user w = (w', Raise e)) as (w' & e & E).
    { destruct Hfail as [(id & Hpk & Hid & Hrow) | [Hpk Hrow]].
      - eexists _, _. apply (save_missing _ _ _ _ Hpk Hid Hrow).
      - destruct (save_taken self user w Hpk Hrow) as (w' & E & _). eauto. }
    rewrite E. cbn [fst].
    split; [apply (save_Raise_unchanged _ _ _ _ _ E) |].
    split; [cbn; lia | constructor].
Qed.

(** ** X4: no other row is touched *)

(** X4. [save] changes no row but the one of the instance it returns, and
    no row at all when it raises. *)
Theorem save_leaves_other_rows self user w j :
  match snd (save self user w) with
  | Ok self' => pk self' <> Some j
  | Raise _ => True
  end ->
  problems (fst (save self user w)) !! j = problems w !! j.
Proof.
  destruct (save self user w) as [w' [self' | e]] eqn:E; cbn [fst snd].
  - intros Hj.
    destruct (save_Ok_spec _ _ _ _ _ E)
      as (recs & id & _ & _ & _ & Hpk & _ & Hdb & _).
    rewrite Hdb. apply lookup_insert_ne. congruence.
  - intros _. now destruct (save_Raise_unchanged _ _ _ _ _ E) as [_ ->].
Qed.

Lemma save_leaves_other_rows_witness :
  problems (fst (save example_row (Some 7) example_world)) !! 1 =
  problems example_world !! 1.
Proof.
  apply (save_leaves_other_rows example_row (Some 7) example_world 1).
  vm_compute. discriminate.
Defined.

(** ** X5: what is saved is what is loaded *)

(** X5. After a [save] that returned, loading the problem by the primary
    key of the returned instance gives that very instance back. *)
Theorem save_then_get self user w w' self' :
  save self user w = (w', Ok self') ->
  Problem_objects_get (pk self') w' = (w', Ok self').
Proof.
  intros E.
  destruct (save_Ok_spec _ _ _ _ _ E)
    as (recs & id & _ & _ & _ & Hpk & _ & Hdb & _).
  unfold Problem_objects_get. rewrite Hpk, Hdb, lookup_insert_eq.
  now rewrite set_pk_same.
Qed.

Lemma save_then_get_witness :
  Problem_objects_get
    (pk (set_started_at (Some 1001)
           (set_updated_at (Some 1002) (set_updated_by (Some 7) example_engaged))))
    (fst (save example_engaged (Some 7) example_world)) =
  (fst (save example_engaged (Some 7) example_world),
   Ok (set_started_at (Some 1001)
         (set_updated_at (Some 1002) (set_updated_by (Some 7) example_engaged)))).
Proof.
  apply (save_then_get example_engaged (Some 7) example_world).
  vm_compute. reflexivity.
Defined.

(** ** X6: stored timestamps agree with the status *)

(** The instance that [save] returns is started if engaged and closed if
    done or cancelled. *)
Lemma save_result_consistent self user w w' self' :
  save self user w = (w', Ok self') -> timestamps_consistent self'.
Proof.
  intros E.
  destruct (save_Ok_spec _ _ _ _ _ E)
    as (recs & id & _ & _ & _ & _ & _ & _ & _ & Hcol).
  apply user_columns_inv in Hcol.
  destruct Hcol as (_ & _ & _ & _ & _ & _ & Hst & _ & _ & _ & _ & Hsa & Hcl).
  destruct (stamp_actor_fields user self) as (_ & Hst0 & Hsa0 & Hcl0).
  set (a := stamp_actor user self) in *.
  unfold stamped in Hst, Hsa, Hcl. cbn in Hst, Hsa, Hcl.
  split.
  - intros He. rewrite Hsa.
    destruct (start_fires a) eqn:F; [discriminate |].
    intros Hn. assert (start_fires a = true); [| congruence].
    apply start_fires_true. split; congruence.
  - intros Hd. rewrite Hcl.
    destruct (close_fires a) eqn:F; [discriminate |].
    intros Hn. assert (close_fires a = true); [| congruence].
    apply close_fires_true. rewrite <- Hst. split; [exact Hd | congruence].
Qed.

(** X6. If every stored problem is started when engaged and closed when
    done or cancelled, the same holds after any [save], whatever instance
    it is given and however it ends. *)
Theorem save_keeps_timestamps_consistent self user w :
  (forall id row, problems w !! id = Some row -> timestamps_consistent row) ->
  forall id row,
    problems (fst (save self user w)) !! id = Some row ->
    timestamps_consistent row.
Proof.
  intros Hinv id row.
  destruct (save self user w) as [w' [self' | e]] eqn:E; cbn [fst].
  - destruct (save_Ok_spec _ _ _ _ _ E)
      as (recs & id' & _ & _ & _ & Hpk & _ & Hdb & _).
    rewrite Hdb. destruct (Z.eq_dec id' id) as [-> | Hne].
    + rewrite lookup_insert_eq. intros [= <-].
      apply (save_result_consistent _ _ _ _ _ E).
    + rewrite lookup_insert_ne by exact Hne. apply Hinv.
  - destruct (save_Raise_unchanged _ _ _ _ _ E) as [_ ->]. apply Hinv.
Qed.

Lemma save_keeps_timestamps_consistent_witness :
  timestamps_consistent
    (set_started_at (Some 1001)
       (set_updated_at (Some 1002) (set_updated_by (Some 7) example_engaged))).
Proof.
  apply (save_keeps_timestamps_consistent example_engaged (Some 7) example_world)
    with (id := 1).
  - intros id row Hrow. unfold example_world in Hrow. cbn [problems] in Hrow.
    apply lookup_singleton_Some in Hrow. destruct Hrow as [_ <-].
    split; cbn; [discriminate | intros [H | H]; discriminate].
  - vm_compute. reflexivity.
Defined.

(** ** X7: the duration of a closed problem is fixed *)

(** X7. When a [save] has stored a problem as done or cancelled, its
    [real_duration] no longer reads the clock: in every world it is
    [closed_at - started_at] for a problem that was started, and [None]
    for one that never was. *)
Theorem closed_problem_duration_is_fixed self user w w1 self1 :
  save self user w = (w1, Ok self1) ->
  status self = "done" \/ status self = "cancelled" ->
  exists c,
    closed_at self1 = Some c /\
    forall w2,
      real_duration self1 w2 =
        (w2, Ok (match started_at self with
                 | Some s => Some (c - s)
                 | None => None
                 end)).
Proof.
  intros E Hd.
  destruct (save_result_consistent _ _ _ _ _ E) as [_ Hc].
  destruct (save_Ok_spec _ _ _ _ _ E)
    as (recs & id & _ & _ & _ & _ & _ & _ & _ & Hcol).
  apply user_columns_inv in Hcol.
  destruct Hcol as (_ & _ & _ & _ & _ & _ & Hst & _ & _ & _ & _ & Hsa & _).
  destruct (stamp_actor_fields user self) as (_ & Hst0 & Hsa0 & _).
  unfold stamped in Hst, Hsa. cbn in Hst, Hsa.
  assert (F : start_fires (stamp_actor user self) = false).
  { destruct (start_fires (stamp_actor user self)) eqn:F; [| reflexivity].
    apply start_fires_true in F. destruct F as [F _].
    rewrite Hst0 in F. rewrite F in Hd. destruct Hd; discriminate. }
  rewrite F, Hsa0 in Hsa.
  destruct (closed_at self1) as [c |] eqn:Hcl.
  2:{ exfalso. apply Hc; [| reflexivity]. now rewrite Hst, Hst0. }
  exists c. split; [reflexivity |]. intros w2.
  unfold real_duration. rewrite Hsa, Hcl.
  destruct (started_at self); reflexivity.
Qed.

Lemma closed_problem_duration_is_fixed_witness :
  exists c,
    closed_at
      (set_closed_at (Some 1002)
         (set_updated_at (Some 1003)
            (set_status "done" (set_started_at (Some 500) example_loaded)))) =
      Some c /\
    forall w2,
      real_duration
        (set_closed_at (Some 1002)
           (set_updated_at (Some 1003)
              (set_status "done" (set_started_at (Some 500) example_loaded))))
        w2 =
        (w2, Ok (match started_at
                         (set_status "done"
                            (set_started_at (Some 500) example_loaded)) with
                 | Some s => Some (c - s)
                 | None => None
                 end)).
Proof.
  apply (closed_problem_duration_is_fixed
           (set_status "done" (set_started_at (Some 500) example_loaded))
           None example_world
           (fst (save (set_status "done" (set_started_at (Some 500) example_loaded))
                   None example_world))).
  - vm_compute. reflexivity.
  - left. reflexivity.
Defined.

(** ** X8: the status and scale filters split a query set *)

Lemma filter_split4 {A} (p1 p2 p3 p4 : A -> bool) (l : list A) :
  Forall (fun x =>
            (if p1 x then 1 else 0) + (if p2 x then 1 else 0)
            + (if p3 x then 1 else 0) + (if p4 x then 1 else 0) = 1)%nat l ->
  Permutation l
    (List.filter p1 l ++ List.filter p2 l ++ List.filter p3 l ++ List.filter p4 l).
Proof.
  induction 1 as [| x l Hx _ IH]; [constructor |].
  cbn [List.filter].
  destruct (p1 x), (p2 x), (p3 x), (p4 x); cbn in Hx; try discriminate.
  - cbn. now constructor.
  - apply Permutation_cons_app. exact IH.
  - rewrite !(app_assoc (List.filter p1 l)).
    apply Permutation_cons_app. rewrite <- !app_assoc. exact IH.
  - rewrite !app_assoc.
    apply Permutation_cons_app. rewrite <- !app_assoc. exact IH.
Qed.

(** X8. On a query set whose problems all have a status among
    [STATUS_CHOICES], the filters [new], [active], [done] and [cancelled]
    select every row exactly once between them; and when all have a scale
    among [SCALE_CHOICES], so do [tasks] and [missions]. *)
Theorem status_filters_split (qs : ProblemQuerySet) :
  (Forall (fun s => valid_status (instance s)) qs ->
   Permutation qs
     (ProblemQuerySet_new qs ++ ProblemQuerySet_active qs
      ++ ProblemQuerySet_done qs ++ ProblemQuerySet_cancelled qs)) /\
  (Forall (fun s => valid_scale (instance s)) qs ->
   Permutation qs (ProblemQuerySet_tasks qs ++ ProblemQuerySet_missions qs)).
Proof.
  split; intros Hv.
  - apply filter_split4.
    eapply List.Forall_impl; [| exact Hv]. intros s Hs.
    unfold valid_status in Hs. cbn in Hs. unfold str_in. cbn [existsb].
    destruct Hs as [<- | [<- | [<- | [<- | [<- | []]]]]]; reflexivity.
  - assert (Hnil : List.filter (fun _ : Selected => false) qs = []).
    { clear Hv. induction qs; auto. }
    pose proof (filter_split4
                  (fun s => String.eqb (scale (instance s)) "task")
                  (fun s => String.eqb (scale (instance s)) "mission")
                  (fun _ => false) (fun _ => false) qs) as H.
    rewrite Hnil, !app_nil_r in H. apply H.
    eapply List.Forall_impl; [| exact Hv]. intros s Hs.
    unfold valid_scale in Hs. cbn in Hs.
    destruct Hs as [<- | [<- | []]]; reflexivity.
Qed.

Lemma status_filters_split_witness :
  let qs := [mkSelected example_loaded None; mkSelected example_engaged None] in
  Permutation qs
    (ProblemQuerySet_new qs ++ ProblemQuerySet_active qs
     ++ ProblemQuerySet_done qs ++ ProblemQuerySet_cancelled qs).
Proof.
  apply (proj1 (status_filters_split
                  [mkSelected example_loaded None; mkSelected example_engaged None])).
  constructor; [unfold valid_status; cbn; tauto |].
  constructor; [unfold valid_status; cbn; tauto |].
  constructor.
Defined.

(** ** X9: [active_state] and the filters [new], [done], [cancelled] *)

(** X9. The filter [new] selects exactly the rows classified [new]; a row
    selected by [done] or [cancelled] is classified [inactive]; and a row
    with a status among [STATUS_CHOICES] that is classified [inactive] is
    selected by [done] or by [cancelled]. *)
Theorem active_state_matches_filters (qs : ProblemQuerySet) (s : Selected) :
  (In s (ProblemQuerySet_new qs) <->
   In s qs /\ active_state (instance s) = "new") /\
  (In s (ProblemQuerySet_done qs) \/ In s (ProblemQuerySet_cancelled qs) ->
   In s qs /\ active_state (instance s) = "inactive") /\
  (valid_status (instance s) ->
   In s qs -> active_state (instance s) = "inactive" ->
   In s (ProblemQuerySet_done qs) \/ In s (ProblemQuerySet_cancelled qs)).
Proof.
  unfold ProblemQuerySet_new, ProblemQuerySet_done, ProblemQuerySet_cancelled.
  rewrite !filter_In. unfold active_state, str_in. cbn [existsb].
  split; [| split].
  - destruct (String.eqb (status (instance s)) "new"); [tauto |].
    destruct (_ || _); split; intros [? ?]; discriminate.
  - intros [[Hin E] | [Hin E]]; apply String.eqb_eq in E; rewrite E;
      (split; [exact Hin | reflexivity]).
  - intros Hv Hin. unfold valid_status in Hv. cbn in Hv.
    destruct Hv as [<- | [<- | [<- | [<- | [<- | []]]]]]; cbn;
      try discriminate; auto.
Qed.

(** ** X10: only open problems are overdue *)

Lemma overdue_at_open t qs s :
  In s (ProblemQuerySet_overdue_at t qs) ->
  str_in (status (instance s)) ["new"; "engaged"; "blocked"] = true /\
  exists s0, In s0 qs /\ instance s0 = instance s.
Proof.
  unfold ProblemQuerySet_overdue_at. intros H.
  apply filter_In in H. destruct H as [H _].
  apply in_map_iff in H. destruct H as (s0 & <- & H).
  apply filter_In in H. destruct H as [Hin Hc].
  apply andb_true_iff in Hc. destruct Hc as [_ Hst].
  cbn [instance]. eauto.
Qed.

(** X10. A problem selected by [overdue] is one that [new] or [active]
    selects from the same query set, and [overdue] selects nothing from
    the rows that [done] or [cancelled] select, whatever the time. *)
Theorem overdue_only_open (t : Z) (qs : ProblemQuerySet) :
  (forall p, In p (map instance (ProblemQuerySet_overdue_at t qs)) ->
             In p (map instance (ProblemQuerySet_new qs)) \/
             In p (map instance (ProblemQuerySet_active qs))) /\
  ProblemQuerySet_overdue_at t (ProblemQuerySet_done qs) = [] /\
  ProblemQuerySet_overdue_at t (ProblemQuerySet_cancelled qs) = [].
Proof.
  split; [| split].
  - intros p Hp. apply in_map_iff in Hp. destruct Hp as (s & <- & Hs).
    apply overdue_at_open in Hs. destruct Hs as (Hst & s0 & Hin & Heq).
    rewrite <- Heq in *. clear Heq.
    unfold str_in in Hst. cbn [existsb] in Hst.
    unfold ProblemQuerySet_new, ProblemQuerySet_active, str_in. cbn [existsb].
    destruct (String.eqb (status (instance s0)) "new") eqn:En.
    + left. apply in_map, filter_In. auto.
    + right. apply in_map, filter_In. split; [exact Hin |].
      exact Hst.
  - destruct (ProblemQuerySet_overdue_at t (ProblemQuerySet_done qs))
      as [| s l] eqn:E; [reflexivity | exfalso].
    assert (Hs : In s (ProblemQuerySet_overdue_at t (ProblemQuerySet_done qs)))
      by (rewrite E; now left).
    apply overdue_at_open in Hs. destruct Hs as (Hst & s0 & Hin & Heq).
    rewrite <- Heq in *. clear Heq.
    apply filter_In in Hin. destruct Hin as [_ Hd].
    apply String.eqb_eq in Hd. rewrite Hd in Hst. discriminate.
  - destruct (ProblemQuerySet_overdue_at t (ProblemQuerySet_cancelled qs))
      as [| s l] eqn:E; [reflexivity | exfalso].
    assert (Hs : In s (ProblemQuerySet_overdue_at t (ProblemQuerySet_cancelled qs)))
      by (rewrite E; now left).
    apply overdue_at_open in Hs. destruct Hs as (Hst & s0 & Hin & Heq).
    rewrite <- Heq in *. clear Heq.
    apply filter_In in Hin. destruct Hin as [_ Hd].
    apply String.eqb_eq in Hd. rewrite Hd in Hst. discriminate.
Qed.

(** ** X11: overdue stays overdue *)

(** X11. A row selected by [overdue] at one time is selected at every
    later time, with the same deadline. *)
Theorem overdue_monotone (t t' : Z) (qs : ProblemQuerySet) (s : Selected) :
  t <= t' ->
  In s (ProblemQuerySet_overdue_at t qs) ->
  In s (ProblemQuerySet_overdue_at t' qs).
Proof.
  unfold ProblemQuerySet_overdue_at. intros Hle H.
  apply filter_In in H. destruct H as [H Hd].
  apply filter_In. split; [exact H |].
  destruct (deadline s) as [[d |] |]; cbn in *; try discriminate.
  apply Z.ltb_lt in Hd. apply Z.ltb_lt. lia.
Qed.

Lemma overdue_monotone_witness :
  In (mkSelected (set_started_at (Some 1001) example_engaged)
        (Some (Some 172800001001)))
     (ProblemQuerySet_overdue_at 172800001003
        [mkSelected (set_started_at (Some 1001) example_engaged) None]).
Proof.
  apply (overdue_monotone 172800001002 172800001003).
  - lia.
  - vm_compute. left. reflexivity.
Defined.

(** ** X12: chaining [overdue] with the other filters *)

Lemma overdue_at_filter (p : Problem -> bool) t (qs : ProblemQuerySet) :
  ProblemQuerySet_overdue_at t (List.filter (fun s => p (instance s)) qs) =
  List.filter (fun s => p (instance s)) (ProblemQuerySet_overdue_at t qs).
Proof.
  unfold ProblemQuerySet_overdue_at.
  induction qs as [| s qs IH]; [reflexivity |].
  cbn [List.filter].
  destruct (p (instance s)) eqn:Ep; cbn [List.filter];
    destruct (negb (is_None (etd (instance s)))
              && negb (is_None (started_at (instance s)))
              && str_in (status (instance s)) ["new"; "engaged"; "blocked"]);
    cbn [map List.filter deadline]; try exact IH;
    destruct (sql_lt (sql_add (started_at (instance s)) (etd (instance s))) t);
    cbn [List.filter instance]; rewrite ?Ep; try exact IH.
  now rewrite IH.
Qed.

Lemma overdue_at_twice t (qs : ProblemQuerySet) :
  ProblemQuerySet_overdue_at t (ProblemQuerySet_overdue_at t qs) =
  ProblemQuerySet_overdue_at t qs.
Proof.
  unfold ProblemQuerySet_overdue_at.
  induction qs as [| s qs IH]; [reflexivity |].
  cbn [List.filter].
  destruct (negb (is_None (etd (instance s)))
            && negb (is_None (started_at (instance s)))
            && str_in (status (instance s)) ["new"; "engaged"; "blocked"]) eqn:Ec;
    cbn [map List.filter deadline]; try exact IH.
  destruct (sql_lt (sql_add (started_at (instance s)) (etd (instance s))) t) eqn:Ed;
    try exact IH.
  cbn [List.filter instance map deadline]. rewrite Ec.
  cbn [map List.filter deadline instance]. rewrite Ed. now rewrite IH.
Qed.

(** X12. [overdue] can be chained with the scale, owner and status filters
    in either order with the same result, and applying it a second time
    (at the same reading of the clock) changes nothing: the [deadline]
    annotation does not get in the way of a further filter. *)
Theorem overdue_chains (t : Z) (user : option Z) (qs : ProblemQuerySet) :
  ProblemQuerySet_overdue_at t (ProblemQuerySet_tasks qs) =
    ProblemQuerySet_tasks (ProblemQuerySet_overdue_at t qs) /\
  ProblemQuerySet_overdue_at t (ProblemQuerySet_missions qs) =
    ProblemQuerySet_missions (ProblemQuerySet_overdue_at t qs) /\
  ProblemQuerySet_overdue_at t (ProblemQuerySet_by_chief user qs) =
    ProblemQuerySet_by_chief user (ProblemQuerySet_overdue_at t qs) /\
  ProblemQuerySet_overdue_at t (ProblemQuerySet_by_executive user qs) =
    ProblemQuerySet_by_executive user (ProblemQuerySet_overdue_at t qs) /\
  ProblemQuerySet_overdue_at t (ProblemQuerySet_active qs) =
    ProblemQuerySet_active (ProblemQuerySet_overdue_at t qs) /\
  ProblemQuerySet_overdue_at t (ProblemQuerySet_new qs) =
    ProblemQuerySet_new (ProblemQuerySet_overdue_at t qs) /\
  ProblemQuerySet_overdue_at t (ProblemQuerySet_overdue_at t qs) =
    ProblemQuerySet_overdue_at t qs.
Proof.
  repeat split.
  - apply (overdue_at_filter (fun p => String.eqb (scale p) "task")).
  - apply (overdue_at_filter (fun p => String.eqb (scale p) "mission")).
  - apply (overdue_at_filter (fun p => ref_eqb (chief p) user)).
  - apply (overdue_at_filter (fun p => ref_eqb (executive p) user)).
  - apply (overdue_at_filter (fun p => str_in (status p) ["engaged"; "blocked"])).
  - apply (overdue_at_filter (fun p => String.eqb (status p) "new")).
  - apply overdue_at_twice.
Qed.

(** ** X13: the manager finds what was saved *)

Lemma all_problems_spec w p :
  In p (map instance (all_problems w)) <->
  exists id row, problems w !! id = Some row /\ p = set_pk (Some id) row.
Proof.
  unfold all_problems. rewrite map_map. cbn [instance]. rewrite in_map_iff.
  split.
  - intros ([id row] & <- & Hin). exists id, row. split; [| reflexivity].
    apply list_elem_of_In in Hin. now apply elem_of_map_to_list in Hin.
  - intros (id & row & Hrow & ->). exists (id, row). split; [reflexivity |].
    apply list_elem_of_In. now apply elem_of_map_to_list.
Qed.

Lemma in_instance_filter (f : Problem -> bool) (qs : ProblemQuerySet) p :
  In p (map instance (List.filter (fun s => f (instance s)) qs)) <->
  In p (map instance qs) /\ f p = true.
Proof.
  rewrite !in_map_iff. split.
  - intros (s & <- & Hs). apply filter_In in Hs. destruct Hs. eauto.
  - intros ((s & <- & Hs) & Hf). exists s. split; [reflexivity |].
    apply filter_In. auto.
Qed.

(** X13. After a [save] that returned, the manager's queries, run on the
    resulting table, never raise, and select the returned instance
    according to the status it was saved with: [new] selects it exactly
    when the status is [new], [active] when it is [engaged] or [blocked],
    [done] when it is [done], and [cancelled] when it is [cancelled]. *)
Theorem manager_selects_saved self user w w' self' :
  save self user w = (w', Ok self') ->
  exists qn qa qd qc,
    ProblemManager_new w' = (w', Ok qn) /\
    ProblemManager_active w' = (w', Ok qa) /\
    ProblemManager_done w' = (w', Ok qd) /\
    ProblemManager_cancelled w' = (w', Ok qc) /\
    (In self' (map instance qn) <-> status self = "new") /\
    (In self' (map instance qa) <->
     status self = "engaged" \/ status self = "blocked") /\
    (In self' (map instance qd) <-> status self = "done") /\
    (In self' (map instance qc) <-> status self = "cancelled").
Proof.
  intros E.
  destruct (save_Ok_spec _ _ _ _ _ E)
    as (recs & id & _ & _ & _ & Hpk & _ & Hdb & _ & Hcol).
  apply user_columns_inv in Hcol.
  destruct Hcol as (_ & _ & _ & _ & _ & _ & Hst & _).
  destruct (stamp_actor_fields user self) as (_ & Hst0 & _).
  unfold stamped in Hst. cbn in Hst. rewrite Hst0 in Hst.
  assert (Hall : In self' (map instance (all_problems w'))).
  { apply all_problems_spec. exists id, self'.
    split; [rewrite Hdb; apply lookup_insert_eq |].
    symmetry. now apply set_pk_same. }
  eexists _, _, _, _.
  split; [reflexivity |]. split; [reflexivity |].
  split; [reflexivity |]. split; [reflexivity |].
  unfold ProblemQuerySet_new, ProblemQuerySet_active, ProblemQuerySet_done,
    ProblemQuerySet_cancelled.
  rewrite (in_instance_filter (fun p => String.eqb (status p) "new")).
  rewrite (in_instance_filter (fun p => str_in (status p) ["engaged"; "blocked"])).
  rewrite (in_instance_filter (fun p => String.eqb (status p) "done")).
  rewrite (in_instance_filter (fun p => String.eqb (status p) "cancelled")).
  rewrite Hst, !String.eqb_eq, str_in_spec. cbn [In].
  intuition congruence.
Qed.

Lemma manager_selects_saved_witness :
  exists qn qa qd qc,
    ProblemManager_new (fst (save example_engaged (Some 7) example_world)) =
      (fst (save example_engaged (Some 7) example_world), Ok qn) /\
    ProblemManager_active (fst (save example_engaged (Some 7) example_world)) =
      (fst (save example_engaged (Some 7) example_world), Ok qa) /\
    ProblemManager_done (fst (save example_engaged (Some 7) example_world)) =
      (fst (save example_engaged (Some 7) example_world), Ok qd) /\
    ProblemManager_cancelled (fst (save example_engaged (Some 7) example_world)) =
      (fst (save example_engaged (Some 7) example_world), Ok qc) /\
    (In (set_started_at (Some 1001)
           (set_updated_at (Some 1002) (set_updated_by (Some 7) example_engaged)))
        (map instance qn) <-> status example_engaged = "new") /\
    (In (set_started_at (Some 1001)
           (set_updated_at (Some 1002) (set_updated_by (Some 7) example_engaged)))
        (map instance qa) <->
     status example_engaged = "engaged" \/ status example_engaged = "blocked") /\
    (In (set_started_at (Some 1001)
           (set_updated_at (Some 1002) (set_updated_by (Some 7) example_engaged)))
        (map instance qd) <-> status example_engaged = "done") /\
    (In (set_started_at (Some 1001)
           (set_updated_at (Some 1002) (set_updated_by (Some 7) example_engaged)))
        (map instance qc) <-> status example_engaged = "cancelled").
Proof.
  apply (manager_selects_saved example_engaged (Some 7) example_world).
  vm_compute. reflexivity.
Defined.

(** ** X14: a problem started by [save] becomes overdue after its estimate *)

(** X14. When a [save] starts a problem (status [engaged], no
    [started_at] yet) that has an estimate [e], the returned instance
    carries a start time [s], and the manager's [overdue] query on the
    resulting table returns and selects that instance exactly when
    [s + e] lies before the reading of the clock that the query takes. *)
Theorem started_problem_overdue_after_estimate self user w w1 self1 e :
  save self user w = (w1, Ok self1) ->
  status self = "engaged" ->
  started_at self = None ->
  etd self = Some e ->
  exists s w2 qs,
    started_at self1 = Some s /\
    ProblemManager_overdue w1 = (w2, Ok qs) /\
    (In self1 (map instance qs) <-> s + e < clock w1 (ticks w1)).
Proof.
  intros E Hst Hsa He.
  destruct (save_Ok_spec _ _ _ _ _ E)
    as (recs & id & _ & _ & _ & Hpk & _ & Hdb & _ & Hcol).
  apply user_columns_inv in Hcol.
  destruct Hcol as (_ & _ & _ & _ & _ & _ & Hst1 & _ & He1 & _ & _ & Hsa1 & _).
  destruct (stamp_actor_fields user self) as (_ & Hst0 & Hsa0 & _).
  assert (He0 : etd (stamp_actor user self) = etd self).
  { unfold stamp_actor. destruct user; [destruct (pk_truthy (pk self)) |]; reflexivity. }
  unfold stamped in Hst1, He1, Hsa1. cbn in Hst1, He1, Hsa1.
  assert (F : start_fires (stamp_actor user self) = true).
  { apply start_fires_true. now rewrite Hst0, Hsa0. }
  rewrite F in Hsa1. rewrite Hst0, Hst in Hst1. rewrite He0, He in He1.
  eexists _, _, _. split; [exact Hsa1 |]. split; [reflexivity |].
  rewrite overdue_at_spec. unfold spec_is_overdue.
  rewrite Hsa1, He1, Hst1. split.
  - intros (_ & s & e' & [= <-] & [= <-] & _ & Hlt). exact Hlt.
  - intros Hlt. split.
    + apply all_problems_spec. exists id, self1.
      split; [rewrite Hdb; apply lookup_insert_eq |].
      symmetry. now apply set_pk_same.
    + eexists _, _. repeat split; auto.
Qed.

Lemma started_problem_overdue_after_estimate_witness :
  exists s w2 qs,
    started_at
      (set_started_at (Some 1001)
         (set_updated_at (Some 1002) (set_updated_by (Some 7) example_engaged))) =
      Some s /\
    ProblemManager_overdue (fst (save example_engaged (Some 7) example_world)) =
      (w2, Ok qs) /\
    (In (set_started_at (Some 1001)
           (set_updated_at (Some 1002) (set_updated_by (Some 7) example_engaged)))
        (map instance qs) <->
     s + 172800000000 <
     clock (fst (save example_engaged (Some 7) example_world))
       (ticks (fst (save example_engaged (Some 7) example_world)))).
Proof.
  apply (started_problem_overdue_after_estimate example_engaged (Some 7)
           example_world).
  - vm_compute. reflexivity.
  - reflexivity.
  - reflexivity.
  - reflexivity.
Defined.

(** ** X15: what [expected_end] returns *)

(** X15. Whenever [expected_end] returns a time, the problem has a
    creation time and an estimate, and the time is their sum. *)
Theorem expected_end_sound self x :
  expected_end self = Some x ->
  exists c d, created_at self = Some c /\ etd self = Some d /\ x = c + d.
Proof.
  unfold expected_end.
  destruct (created_at self) as [c |], (etd self) as [d |]; cbn;
    try discriminate.
  destruct (Z.eqb d 0); cbn; [discriminate |].
  intros [= <-]. eauto.
Qed.

Lemma expected_end_sound_witness :
  exists c d,
    created_at example_engaged = Some c /\
    etd example_engaged = Some d /\
    172800000010 = c + d.
Proof.
  apply (expected_end_sound example_engaged 172800000010).
  reflexivity.
Defined.

(** ** X16: saving again changes no column *)

(** The timestamp rule does nothing to an instance whose timestamps agree
    with its status. *)
Lemma stamped_consistent clk n self :
  timestamps_consistent self -> stamped clk n self = self.
Proof.
  intros [Hs Hc]. unfold stamped.
  assert (Fs : start_fires self = false).
  { destruct (start_fires self) eqn:F; [| reflexivity].
    apply start_fires_true in F. destruct F as [F1 F2]. now destruct (Hs F1). }
  assert (Fc : close_fires self = false).
  { destruct (close_fires self) eqn:F; [| reflexivity].
    apply close_fires_true in F. destruct F as [F1 F2]. now destruct (Hc F1). }
  rewrite Fs, Fc. now destruct self.
Qed.

(** X16. After a [save] that returned, saving the returned instance again
    without an actor returns an instance with the same primary key and the
    same columns (all but the two timestamps of the framework): the actor
    stamps and the start and close times of the first [save] stay. *)
Theorem save_again_keeps_columns self user w w1 self1 :
  save self user w = (w1, Ok self1) ->
  exists w2 self2,
    save self1 None w1 = (w2, Ok self2) /\
    pk self2 = pk self1 /\
    user_columns self2 = user_columns self1.
Proof.
  intros E.
  pose proof (save_result_consistent _ _ _ _ _ E) as Hc.
  destruct (save_Ok_stored _ _ _ _ _ E) as (id & Hpk & Hrow).
  assert (Hs : saveable self1 w1).
  { unfold saveable. rewrite Hpk. eauto. }
  destruct (save_spec self1 None w1 Hs)
    as (recs & w2 & self2 & id2 & E2 & _ & _ & _ & Hpk2 & Hor & _ & _ & Hcol).
  exists w2, self2. split; [exact E2 |]. split.
  - destruct Hor as [Hn | Hn]; congruence.
  - rewrite Hcol. cbn [stamp_actor]. now rewrite stamped_consistent.
Qed.

Lemma save_again_keeps_columns_witness :
  exists w2 self2,
    save (set_started_at (Some 1001)
            (set_updated_at (Some 1002) (set_updated_by (Some 7) example_engaged)))
         None (fst (save example_engaged (Some 7) example_world)) =
      (w2, Ok self2) /\
    pk self2 =
      pk (set_started_at (Some 1001)
            (set_updated_at (Some 1002) (set_updated_by (Some 7) example_engaged))) /\
    user_columns self2 =
      user_columns
        (set_started_at (Some 1001)
           (set_updated_at (Some 1002) (set_updated_by (Some 7) example_engaged))).
Proof.
  apply (save_again_keeps_columns example_engaged (Some 7) example_world).
  vm_compute. reflexivity.
Defined.

(** ** X17: the duration of a started, open problem runs with the clock *)

(** X17. When a [save] has stored a problem as [engaged] and not closed,
    the returned instance has a start time [s], and its [real_duration],
    in any world, takes one reading of the clock and is that reading minus
    [s]. *)
Theorem open_problem_duration_runs self user w w1 self1 :
  save self user w = (w1, Ok self1) ->
  status self = "engaged" ->
  closed_at self = None ->
  exists s,
    started_at self1 = Some s /\
    forall w2,
      real_duration self1 w2 =
        (mkWorld (problems w2) (next_pk w2) (history w2) (clock w2)
           (S (ticks w2)),
         Ok (Some (clock w2 (ticks w2) - s))).
Proof.
  intros E Hst Hcl.
  destruct (save_result_consistent _ _ _ _ _ E) as [Hs _].
  destruct (save_Ok_spec _ _ _ _ _ E)
    as (recs & id & _ & _ & _ & _ & _ & _ & _ & Hcol).
  apply user_columns_inv in Hcol.
  destruct Hcol as (_ & _ & _ & _ & _ & _ & Hst1 & _ & _ & _ & _ & _ & Hcl1).
  destruct (stamp_actor_fields user self) as (_ & Hst0 & _ & Hcl0).
  unfold stamped in Hst1, Hcl1. cbn in Hst1, Hcl1.
  assert (F : close_fires (stamp_actor user self) = false).
  { destruct (close_fires (stamp_actor user self)) eqn:F; [| reflexivity].
    apply close_fires_true in F. destruct F as [F _].
    rewrite Hst0, Hst in F. destruct F; discriminate. }
  rewrite F, Hcl0, Hcl in Hcl1. rewrite Hst0, Hst in Hst1.
  destruct (started_at self1) as [s |] eqn:Hsa; [| now destruct (Hs Hst1)].
  exists s. split; [reflexivity |]. intros w2.
  unfold real_duration. rewrite Hsa, Hcl1. reflexivity.
Qed.

Lemma open_problem_duration_runs_witness :
  exists s,
    started_at
      (set_started_at (Some 1001)
         (set_updated_at (Some 1002) (set_updated_by (Some 7) example_engaged))) =
      Some s /\
    forall w2,
      real_duration
        (set_started_at (Some 1001)
           (set_updated_at (Some 1002) (set_updated_by (Some 7) example_engaged)))
        w2 =
        (mkWorld (problems w2) (next_pk w2) (history w2) (clock w2)
           (S (ticks w2)),
         Ok (Some (clock w2 (ticks w2) - s))).
Proof.
  apply (open_problem_duration_runs example_engaged (Some 7) example_world
           (fst (save example_engaged (Some 7) example_world))).
  - vm_compute. reflexivity.
  - reflexivity.
  - reflexivity.
Defined.

(** ** X18: the manager's scale and owner queries find what was saved *)

Lemma ref_eqb_eq a b : ref_eqb a b = true <-> a = b.
Proof.
  destruct a as [x |], b as [y |]; cbn; try (split; congruence).
  rewrite Z.eqb_eq. split; congruence.
Qed.

(** X18. After a [save] that returned, the manager's queries [tasks],
    [missions], [by_chief] and [by_executive], run on the resulting table,
    never raise, and select the returned instance exactly when the
    instance was saved with that scale, that chief (or none, for [None])
    and that executive. *)
Theorem manager_selects_saved_by_owner self user w w' self' (u : option Z) :
  save self user w = (w', Ok self') ->
  exists qt qm qc qe,
    ProblemManager_tasks w' = (w', Ok qt) /\
    ProblemManager_missions w' = (w', Ok qm) /\
    ProblemManager_by_chief u w' = (w', Ok qc) /\
    ProblemManager_by_executive u w' = (w', Ok qe) /\
    (In self' (map instance qt) <-> scale self = "task") /\
    (In self' (map instance qm) <-> scale self = "mission") /\
    (In self' (map instance qc) <-> chief self = u) /\
    (In self' (map instance qe) <-> executive self = u).
Proof.
  intros E.
  destruct (save_Ok_spec _ _ _ _ _ E)
    as (recs & id & _ & _ & _ & Hpk & _ & Hdb & _ & Hcol).
  apply user_columns_inv in Hcol.
  destruct Hcol as (_ & _ & Hsc & _ & Hch & Hex & _).
  assert (Hact : scale (stamp_actor user self) = scale self /\
                 chief (stamp_actor user self) = chief self /\
                 executive (stamp_actor user self) = executive self).
  { unfold stamp_actor.
    destruct user; [destruct (pk_truthy (pk self)) |]; repeat split. }
  destruct Hact as (Hsc0 & Hch0 & Hex0).
  unfold stamped in Hsc, Hch, Hex. cbn in Hsc, Hch, Hex.
  rewrite Hsc0 in Hsc. rewrite Hch0 in Hch. rewrite Hex0 in Hex.
  assert (Hall : In self' (map instance (all_problems w'))).
  { apply all_problems_spec. exists id, self'.
    split; [rewrite Hdb; apply lookup_insert_eq |].
    symmetry. now apply set_pk_same. }
  eexists _, _, _, _.
  split; [reflexivity |]. split; [reflexivity |].
  split; [reflexivity |]. split; [reflexivity |].
  unfold ProblemQuerySet_tasks, ProblemQuerySet_missions,
    ProblemQuerySet_by_chief, ProblemQuerySet_by_executive.
  rewrite (in_instance_filter (fun p => String.eqb (scale p) "task")).
  rewrite (in_instance_filter (fun p => String.eqb (scale p) "mission")).
  rewrite (in_instance_filter (fun p => ref_eqb (chief p) u)).
  rewrite (in_instance_filter (fun p => ref_eqb (executive p) u)).
  rewrite Hsc, Hch, Hex, !String.eqb_eq, !ref_eqb_eq.
  tauto.
Qed.

Lemma manager_selects_saved_by_owner_witness :
  exists qt qm qc qe,
    ProblemManager_tasks (fst (save example_engaged (Some 7) example_world)) =
      (fst (save example_engaged (Some 7) example_world), Ok qt) /\
    ProblemManager_missions (fst (save example_engaged (Some 7) example_world)) =
      (fst (save example_engaged (Some 7) example_world), Ok qm) /\
    ProblemManager_by_chief None
      (fst (save example_engaged (Some 7) example_world)) =
      (fst (save example_engaged (Some 7) example_world), Ok qc) /\
    ProblemManager_by_executive None
      (fst (save example_engaged (Some 7) example_world)) =
      (fst (save example_engaged (Some 7) example_world), Ok qe) /\
    (In (set_started_at (Some 1001)
           (set_updated_at (Some 1002) (set_updated_by (Some 7) example_engaged)))
        (map instance qt) <-> scale example_engaged = "task") /\
    (In (set_started_at (Some 1001)
           (set_updated_at (Some 1002) (set_updated_by (Some 7) example_engaged)))
        (map instance qm) <-> scale example_engaged = "mission") /\
    (In (set_started_at (Some 1001)
           (set_updated_at (Some 1002) (set_updated_by (Some 7) example_engaged)))
        (map instance qc) <-> chief example_engaged = None) /\
    (In (set_started_at (Some 1001)
           (set_updated_at (Some 1002) (set_updated_by (Some 7) example_engaged)))
        (map instance qe) <-> executive example_engaged = None).
Proof.
  apply (manager_selects_saved_by_owner example_engaged (Some 7) example_world).
  vm_compute. reflexivity.
Defined.

(** ** X19: the rows that the loop of [save] writes, field by field *)

Lemma py_ne_str a b : py_ne (VStr a) (VStr b) = negb (bool_decide (a = b)).
Proof.
  unfold py_ne. cbn. f_equal.
  destruct (String.eqb_spec a b); case_bool_decide; congruence.
Qed.

Lemma py_ne_opt_str a b :
  py_ne (of_opt VStr a) (of_opt VStr b) = negb (bool_decide (a = b)).
Proof.
  destruct a as [x |], b as [y |]; unfold py_ne; cbn; f_equal;
    try (case_bool_decide; congruence).
  destruct (String.eqb_spec x y); case_bool_decide; congruence.
Qed.

Lemma py_ne_opt_Z (inj : Z -> value) a b :
  (forall x y, py_eq (inj x) (inj y) = Z.eqb x y) ->
  (forall x, py_eq (inj x) VNone = false /\ py_eq VNone (inj x) = false) ->
  py_ne (of_opt inj a) (of_opt inj b) = negb (bool_decide (a = b)).
Proof.
  intros Hinj Hnone.
  destruct a as [x |], b as [y |]; unfold py_ne, of_opt; f_equal.
  - rewrite Hinj. destruct (Z.eqb_spec x y); case_bool_decide; congruence.
  - rewrite (proj1 (Hnone x)). case_bool_decide; congruence.
  - rewrite (proj2 (Hnone y)). case_bool_decide; congruence.
Qed.

Lemma map_filter_flags {A B} (g : A -> B) (p : A -> bool) (l : list A) :
  map g (List.filter p l) =
  map fst (List.filter snd (map (fun x => (g x, p x)) l)).
Proof.
  induction l as [| x l IH]; [reflexivity |].
  cbn. destruct (p x); cbn; now rewrite IH.
Qed.

(** X19. An update of an existing problem (the instance has a true
    primary key and [old] is the row loaded for it) returns normally and
    appends to the history, in this order, one row for each of [title],
    [description], [status], [priority], [chief], [executive], [etd],
    [scale], [started_at] and [closed_at] whose stored value and value in
    the instance handed to [save] are unequal (for [priority], unequal as
    floats), and no other row; each row holds the name of the field, the
    stored value and the value of the instance, the problem and the
    actor. *)
Theorem save_logs_each_changed_field self user w old :
  pk_truthy (pk self) = true ->
  Problem_objects_get (pk self) w = (w, Ok old) ->
  exists recs w' self',
    save self user w = (w', Ok self') /\
    history w' = (history w ++ recs)%list /\
    map (fun r => (h_field r, h_old_value r, h_new_value r)) recs =
      map fst
        (List.filter snd
           [ (("title", VStr (title old), VStr (title self)),
              negb (bool_decide (title old = title self)));
             (("description", of_opt VStr (description old),
               of_opt VStr (description self)),
              negb (bool_decide (description old = description self)));
             (("status", VStr (status old), VStr (status self)),
              negb (bool_decide (status old = status self)));
             (("priority", VFloat (priority old), VFloat (priority self)),
              negb (PrimFloat.eqb (priority old) (priority self)));
             (("chief", of_opt VUser (chief old), of_opt VUser (chief self)),
              negb (bool_decide (chief old = chief self)));
             (("executive", of_opt VUser (executive old),
               of_opt VUser (executive self)),
              negb (bool_decide (executive old = executive self)));
             (("etd", of_opt VDuration (etd old), of_opt VDuration (etd self)),
              negb (bool_decide (etd old = etd self)));
             (("scale", VStr (scale old), VStr (scale self)),
              negb (bool_decide (scale old = scale self)));
             (("started_at", of_opt VDateTime (started_at old),
               of_opt VDateTime (started_at self)),
              negb (bool_decide (started_at old = started_at self)));
             (("closed_at", of_opt VDateTime (closed_at old),
               of_opt VDateTime (closed_at self)),
              negb (bool_decide (closed_at old = closed_at self))) ]) /\
    Forall (fun r => h_problem r = pk self /\ h_changed_by r = user) recs.
Proof.
  intros Ht Hget.
  pose proof (update_saveable _ _ _ Ht Hget) as Hs.
  destruct (save_spec self user w Hs)
    as (recs & w' & self' & id & E & Hh & _ & Hupd & _).
  destruct (Hupd old Ht Hget) as [Hm Hr].
  exists recs, w', self'.
  split; [exact E |]. split; [exact Hh |]. split.
  - set (g := fun f : string =>
                (f, default VNone (Problem_attr old f),
                 default VNone (Problem_attr self f))).
    assert (Hg : map (fun r => (h_field r, h_old_value r, h_new_value r)) recs =
                 map g (map h_field recs)).
    { rewrite map_map. apply map_ext_in. intros r Hin.
      rewrite List.Forall_forall in Hr.
      destruct (Hr r Hin) as (_ & _ & Ho & Hn).
      unfold g. now rewrite Ho, Hn. }
    rewrite Hg, Hm, map_filter_flags. do 2 f_equal.
    unfold track_fields, g, value_differs. cbn [map].
    cbn [Problem_attr String.eqb Ascii.eqb Bool.eqb default].
    rewrite !py_ne_str, !py_ne_opt_str.
    rewrite !(py_ne_opt_Z VUser) by (intros; cbn; auto).
    rewrite !(py_ne_opt_Z VDuration) by (intros; cbn; auto).
    rewrite !(py_ne_opt_Z VDateTime) by (intros; cbn; auto).
    reflexivity.
  - eapply List.Forall_impl; [| exact Hr].
    intros r (Hp & Hu & _). auto.
Qed.

Lemma save_logs_each_changed_field_witness :
  exists recs w' self',
    save started_done (Some 7) started_world = (w', Ok self') /\
    history w' = (history started_world ++ recs)%list /\
    map (fun r => (h_field r, h_old_value r, h_new_value r)) recs =
      [("status", VStr "engaged", VStr "done")] /\
    Forall (fun r => h_problem r = pk started_done /\ h_changed_by r = Some 7)
           recs.
Proof.
  destruct (save_logs_each_changed_field started_done (Some 7) started_world
              (set_started_at (Some 500) (set_status "engaged" example_loaded)))
    as (recs & w' & self' & E & Hh & Hm & Hr).
  - reflexivity.
  - reflexivity.
  - exists recs, w', self'. repeat split; assumption.
Defined.
